(** * medical_imaging/medical.py: a shallow embedding and its properties

    The script is a Streamlit page: it checks the API credential, lets the
    user upload images, sends each one (resized to width 500) to a
    multimodal agent, keeps the (filename, report) pairs in the session
    history, and renders the reports with download buttons and a two-column
    comparison view.

    Everything outside the repository (Pillow, the agent, reportlab) is a
    field of the class [Libs]; the theorems hold for every instance.
    Python floats are IEEE-754 binary64 numbers, modelled with the
    executable specification [SpecFloat] of the Standard Library.

    Streamlit calls that can raise on ordinary inputs do so here too:
    [st.image] decodes the upload, [st.download_button] refuses a second
    button with the identity of an earlier one.

    Left out: exceptions that do not derive from [Exception], and
    failures of the storage itself (opening a file for writing always
    succeeds). *)

From Stdlib Require Import ZArith String Ascii List Lia.
From Stdlib Require Import Floats.SpecFloat.
From Stdlib Require Import QArith Qround DecimalString.
From Stdlib Require Import Reals Lra.
From stdpp Require Import base option list gmap strings.

Local Open Scope string_scope.

(** ** Exceptions *)

(** A Python exception: its class name and [str(e)]. All the exceptions
    of this model derive from [Exception]. *)
Record exn := Exn { exn_type : string; exn_str : string }.

#[global] Instance exn_eq_dec : EqDecision exn.
Proof. solve_decision. Defined.

Definition FileNotFoundError (path : string) : exn :=
  Exn "FileNotFoundError" ("[Errno 2] No such file or directory: '" +:+ path +:+ "'").
Definition ZeroDivisionError (msg : string) : exn := Exn "ZeroDivisionError" msg.
Definition OverflowError (msg : string) : exn := Exn "OverflowError" msg.
Definition ValueError (msg : string) : exn := Exn "ValueError" msg.
Definition StopIteration : exn := Exn "StopIteration" "".
Definition AttributeError (msg : string) : exn := Exn "AttributeError" msg.
Definition StreamlitDuplicateElementId (kind : string) : exn :=
  Exn "StreamlitDuplicateElementId"
      ("There are multiple `" +:+ kind +:+ "` elements with the same auto-generated ID.").

(** ** Python numbers *)

Module PyFloat.
Local Open Scope Z_scope.

(** binary64 *)
Definition prec : Z := 53.
Definition emax : Z := 1024.

Definition float := spec_float.

(** An integer as an (unrounded) binary number [n * 2^0]. *)
Definition of_Z_exact (n : Z) : float :=
  match n with
  | Z0 => S754_zero false
  | Zpos p => S754_finite false p 0
  | Zneg p => S754_finite true p 0
  end.

(** [float(n)], rounded to nearest even. *)
Definition of_int (n : Z) : exn + float :=
  match binary_normalize prec emax n 0 false with
  | S754_infinity _ => inl (OverflowError "int too large to convert to float")
  | f => inr f
  end.

Definition is_zero (f : float) : bool :=
  match f with S754_zero _ => true | _ => false end.

(** [a / b] on two [int]s: the correctly rounded quotient. *)
Definition int_truediv (a b : Z) : exn + float :=
  if Z.eqb b 0 then inl (ZeroDivisionError "division by zero")
  else match SFdiv prec emax (of_Z_exact a) (of_Z_exact b) with
       | S754_infinity _ =>
           inl (OverflowError "integer division result too large for a float")
       | f => inr f
       end.

(** [x / y] on two [float]s. *)
Definition float_truediv (x y : float) : exn + float :=
  if is_zero y then inl (ZeroDivisionError "float division by zero")
  else inr (SFdiv prec emax x y).

(** [n / y] with [n] an [int] and [y] a [float]: [n] is converted first. *)
Definition int_float_truediv (n : Z) (y : float) : exn + float :=
  match of_int n with
  | inl e => inl e
  | inr x => float_truediv x y
  end.

(** [int(f)]: truncation towards zero. *)
Definition to_int (f : float) : exn + Z :=
  match f with
  | S754_zero _ => inr 0
  | S754_finite s m e =>
      let a := match e with
               | Z0 => Zpos m
               | Zpos _ => Z.shiftl (Zpos m) e
               | Zneg k => Z.shiftr (Zpos m) (Zpos k)
               end in
      inr (if s then - a else a)
  | S754_infinity _ => inl (OverflowError "cannot convert float infinity to integer")
  | S754_nan => inl (ValueError "cannot convert float NaN to integer")
  end.
End PyFloat.

(** ** Data *)

Abbreviation bytes := (list Byte.byte).

(** One element of [st.session_state.history]: the dict
    [{"filename": ..., "report": ...}]. *)
Record entry := Entry { filename : string; report : string }.

#[global] Instance entry_eq_dec : EqDecision entry.
Proof. solve_decision. Defined.

(** A file handed over by [st.sidebar.file_uploader]. *)
Record uploaded_file := UploadedFile { name : string; getbuffer : bytes }.

(** The [data] argument of [st.download_button]. *)
Inductive download_data :=
| TextData (s : string)
| BinaryData (b : bytes).

(** What a run of the script puts on the page. *)
Inductive element :=
| ErrorBox (body : string)
| PageConfig (page_title layout : string)
| Title (body : string)
| Markdown (body : string)
| Subheader (body : string)
| SidebarHeader (body : string)
| FileUploader (label : string) (types : list string)
| ImageView (caption : string)
| SidebarButton (label : string)
| Spinner (text : string)
| DownloadButton (label : string) (data : download_data) (file_name mime : string)
| Selectbox (label : string) (options : list string) (key : string)
            (value : option string)
| Column (index : nat) (body : list element).

(** ** The libraries the script calls *)

Class Libs := {
  (** a decoded Pillow image *)
  image : Type;
  (** [image.size] *)
  image_size : image -> Z * Z;
  (** [PILImage.open] on the content of a file *)
  pil_open : bytes -> exn + image;
  (** [image.resize((w, h))] *)
  pil_resize : image -> Z * Z -> exn + image;
  (** the image [resize] returns has the size it was asked for *)
  pil_resize_size : forall img size rz,
    pil_resize img size = inr rz -> image_size rz = size;
  (** [image.save(path)]: the bytes of the file written, or the exception
      raised and what was written before it *)
  pil_save : image -> exn * bytes + bytes;
  (** what [st.image] does with the decoded upload: scaling and encoding
      for the browser *)
  st_image_encode : image -> exn + unit;
  (** [medical_agent.run(query, images=[AgnoImage(filepath=p)]).content]:
      the number of earlier calls, the prompt, and what is stored at [p] *)
  agent_run : nat -> string -> option bytes -> exn + string;
  (** the document reportlab draws from the lines given to [textLine] *)
  pdf_render : list string -> bytes
}.

(** ** State and the monad of the script *)

Record state := State {
  (** local storage: path to content *)
  fs : gmap string bytes;
  (** [os.environ] *)
  environ : gmap string string;
  (** calls made to the agent so far *)
  calls : nat;
  (** [st.session_state.history], [None] while the key is not there *)
  session_history : option (list entry);
  (** elements rendered by the current run, in order *)
  page : list element
}.

Definition set_fs (f : gmap string bytes -> gmap string bytes) (s : state) : state :=
  State (f (fs s)) (environ s) (calls s) (session_history s) (page s).
Definition set_environ (f : gmap string string -> gmap string string) (s : state) : state :=
  State (fs s) (f (environ s)) (calls s) (session_history s) (page s).
Definition set_calls (f : nat -> nat) (s : state) : state :=
  State (fs s) (environ s) (f (calls s)) (session_history s) (page s).
Definition set_history (h : option (list entry)) (s : state) : state :=
  State (fs s) (environ s) (calls s) h (page s).
Definition set_page (f : list element -> list element) (s : state) : state :=
  State (fs s) (environ s) (calls s) (session_history s) (f (page s)).

(** A computation either returns or raises, and changes the state either way. *)
Definition M (A : Type) : Type := state -> state * (exn + A).

Definition ret {A} (a : A) : M A := fun s => (s, inr a).
Definition raise {A} (e : exn) : M A := fun s => (s, inl e).
Definition lift {A} (r : exn + A) : M A := fun s => (s, r).
Definition bind {A B} (m : M A) (k : A -> M B) : M B :=
  fun s => match m s with
           | (s', inr a) => k a s'
           | (s', inl e) => (s', inl e)
           end.

#[global] Instance M_ret : MRet M := @ret.
#[global] Instance M_bind : MBind M := fun A B k m => bind m k.

(** [try: body  except Exception as e: handler e] *)
Definition try_except {A} (body : M A) (handler : exn -> M A) : M A :=
  fun s => match body s with
           | (s', inl e) => handler e s'
           | r => r
           end.

(** [try: body  finally: cleanup]: [cleanup] runs on both exits; when it
    raises, its exception replaces the outcome of [body]. *)
Definition try_finally {A} (body : M A) (cleanup : M unit) : M A :=
  fun s => match body s with
           | (s', r) => match cleanup s' with
                        | (s'', inl e) => (s'', inl e)
                        | (s'', inr _) => (s'', r)
                        end
           end.

Fixpoint for_each {A} (f : A -> M unit) (l : list A) : M unit :=
  match l with
  | [] => ret tt
  | x :: l' => bind (f x) (fun _ => for_each f l')
  end.

(** ** Storage and page primitives *)

(** [with open(path, "wb") as f: f.write(data)] *)
Definition write_file (path : string) (data : bytes) : M unit :=
  fun s => (set_fs (insert path data) s, inr tt).

(** [os.remove(path)] *)
Definition os_remove (path : string) : M unit :=
  fun s => match fs s !! path with
           | Some _ => (set_fs (delete path) s, inr tt)
           | None => (s, inl (FileNotFoundError path))
           end.

Definition emit (e : element) : M unit :=
  fun s => (set_page (fun p => (p ++ [e])%list) s, inr tt).

(** The identity Streamlit gives a download button that has no [key]: it
    is computed from the label, the file name and the MIME type, not from
    the data. The other widgets of the page occur once, or have a key. *)
Definition element_id (el : element) : option (string * string * string) :=
  match el with
  | DownloadButton label _ file_name mime => Some (label, file_name, mime)
  | _ => None
  end.

(** [st.download_button(label, data, file_name, mime)]: a second button
    with the identity of one already on the page of this run is refused. *)
Definition st_download_button (label : string) (data : download_data)
           (file_name mime : string) : M unit :=
  fun s => if decide ((label, file_name, mime) ∈ omap element_id (page s))
           then (s, inl (StreamlitDuplicateElementId "download_button"))
           else emit (DownloadButton label data file_name mime) s.

Definition get_history : M (list entry) :=
  fun s => match session_history s with
           | Some h => (s, inr h)
           | None => (s, inl (AttributeError "st.session_state has no attribute 'history'"))
           end.

(** [st.session_state.history.append(e)] *)
Definition history_append (e : entry) : M unit :=
  fun s => match session_history s with
           | Some h => (set_history (Some (h ++ [e])%list) s, inr tt)
           | None => (s, inl (AttributeError "st.session_state has no attribute 'history'"))
           end.

(** ** Strings *)

(** [s.split(sep)] for a one-character separator. *)
Fixpoint split_on (sep : ascii) (s : string) : list string :=
  match s with
  | EmptyString => [EmptyString]
  | String c s' =>
      if Ascii.eqb c sep then EmptyString :: split_on sep s'
      else match split_on sep s' with
           | [] => [String c EmptyString]
           | x :: xs => String c x :: xs
           end
  end.

Definition newline : ascii := "010"%char.

(** Truth value of a [str] or [None]. *)
Definition truthy (o : option string) : bool :=
  match o with
  | Some (String _ _) => true
  | _ => false
  end.

(** ** The script *)

Section Script.
Context {L : Libs}.

Definition query : string := "
You are a highly skilled medical imaging expert with extensive knowledge in radiology and diagnostic imaging. Analyze the medical image and structure your response as follows:

### 1. Image Type & Region
- Identify imaging modality (X-ray/MRI/CT/Ultrasound/etc.).
- Specify anatomical region and positioning.
- Evaluate image quality and technical adequacy.

### 2. Key Findings
- Highlight primary observations systematically.
- Identify potential abnormalities with detailed descriptions.
- Include measurements and densities where relevant.

### 3. Diagnostic Assessment
- Provide primary diagnosis with confidence level.
- List differential diagnoses ranked by likelihood.
- Support each diagnosis with observed evidence.
- Highlight critical/urgent findings.

### 4. Patient-Friendly Explanation
- Simplify findings in clear, non-technical language.
- Avoid medical jargon or provide easy definitions.
- Include relatable visual analogies.

### 5. Research Context
- Use DuckDuckGo search to find recent medical literature.
- Search for standard treatment protocols.
- Provide 2-3 key references supporting the analysis.

Ensure a structured and medically accurate response using clear markdown formatting.
".

(** *** Image analysis (lines 76-95) *)

Definition PILImage_open (path : string) : M image :=
  fun s => match fs s !! path with
           | Some data => (s, pil_open data)
           | None => (s, inl (FileNotFoundError path))
           end.

(** [image.save(path)]: Pillow opens the file for writing, then encodes;
    when the encoder raises, a file that was not there before is removed
    and one that was there keeps what was written. *)
Definition image_save (img : image) (path : string) : M unit :=
  fun s => match pil_save img with
           | inr data => (set_fs (insert path data) s, inr tt)
           | inl (e, written) =>
               (match fs s !! path with
                | Some _ => set_fs (insert path written) s
                | None => s
                end, inl e)
           end.

Definition medical_agent_run (q path : string) : M string :=
  fun s => (set_calls S s, agent_run (calls s) q (fs s !! path)).

Definition new_width : Z := 500.

(** Lines 79-81: the height asked of [resize]. *)
Definition new_height (width height : Z) : exn + Z :=
  match PyFloat.int_truediv width height with
  | inl e => inl e
  | inr aspect_ratio =>
      match PyFloat.int_float_truediv new_width aspect_ratio with
      | inl e => inl e
      | inr q => PyFloat.to_int q
      end
  end.

Definition temp_path : string := "temp_resized_image.png".

Definition warning_marker : string := "⚠️".

Definition analysis_error (e : exn) : string :=
  warning_marker +:+ " Analysis error: " +:+ exn_str e.

Definition analyze_medical_image (image_path : string) : M string :=
  image ← PILImage_open image_path;
  let '(width, height) := image_size image in
  new_height ← lift (new_height width height);
  resized_image ← lift (pil_resize image (new_width, new_height));
  image_save resized_image temp_path;;
  try_finally
    (try_except (medical_agent_run query temp_path)
                (fun e => ret (analysis_error e)))
    (os_remove temp_path).

(** *** Analyze All (lines 145-161) *)

Definition image_path_of (uploaded : uploaded_file) : string :=
  "temp_" +:+ name uploaded.

Definition analyze_one (uploaded : uploaded_file) : M unit :=
  emit (Spinner ("🔍 Analyzing " +:+ name uploaded +:+ "..."));;
  let image_path := image_path_of uploaded in
  write_file image_path (getbuffer uploaded);;
  report ← analyze_medical_image image_path;
  history_append (Entry (name uploaded) report);;
  os_remove image_path.

Definition analyze_all (uploaded : list uploaded_file) : M unit :=
  for_each analyze_one uploaded.

(** Line 142, [st.image(uploaded_file, caption=...)]: Streamlit decodes
    the upload with Pillow, then scales and encodes it for the browser. *)
Definition st_image (uploaded : uploaded_file) : M unit :=
  image ← lift (pil_open (getbuffer uploaded));
  lift (st_image_encode image);;
  emit (ImageView ("Uploaded: " +:+ name uploaded)).

(** *** Reports and downloads (lines 100-112, 166-188) *)

Definition create_pdf (report_text : string) : bytes :=
  pdf_render (split_on newline report_text).

Definition txt_button (e : entry) : M unit :=
  st_download_button ("⬇️ Download " +:+ filename e +:+ " Report (TXT)")
                     (TextData (report e))
                     (filename e +:+ "_report.txt") "text/plain".

Definition pdf_button (e : entry) : M unit :=
  st_download_button ("⬇️ Download " +:+ filename e +:+ " Report (PDF)")
                     (BinaryData (create_pdf (report e)))
                     (filename e +:+ "_report.pdf") "application/pdf".

(** Lines 170-188, the body of the loop. *)
Definition display_entry (e : entry) : M unit :=
  emit (Markdown ("### 🖼️ " +:+ filename e));;
  emit (Markdown (report e));;
  txt_button e;;
  pdf_button e.

Definition display_reports : M unit :=
  h ← get_history;
  match h with
  | [] => ret tt
  | _ => emit (Subheader "📊 Analysis Results");;
         for_each display_entry h
  end.

(** *** Comparison view (lines 193-215) *)

(** [st.selectbox(label, options, key=key)] with the default [index=0]:
    the user's choice when there is one among the options, else the
    first option, [None] without options. *)
Definition selectbox (options : list string) (key : string)
           (widgets : gmap string string) : option string :=
  match widgets !! key with
  | Some v => if decide (v ∈ options) then Some v else head options
  | None => head options
  end.

(** [next(entry for entry in history if entry["filename"] == file)],
    with the position of the entry found. *)
Definition next_entry (h : list entry) (file : string) : exn + (nat * entry) :=
  match list_find (fun e => filename e = file) h with
  | Some r => inr r
  | None => inl StopIteration
  end.

(** Lines 205-207: the two entries to show, [None] when the guard fails. *)
Definition compare_lookup (h : list entry) (file1 file2 : option string)
  : exn + option (entry * entry) :=
  if truthy file1 && truthy file2 && bool_decide (file1 ≠ file2) then
    match file1, file2 with
    | Some f1, Some f2 =>
        match next_entry h f1 with
        | inl e => inl e
        | inr (_, r1) =>
            match next_entry h f2 with
            | inl e => inl e
            | inr (_, r2) => inr (Some (r1, r2))
            end
        end
    | _, _ => inr None
    end
  else inr None.

Definition report_panel (index : nat) (r : entry) : element :=
  Column index [ Markdown ("### 🖼️ " +:+ filename r); Markdown (report r) ].

Definition compare_reports (widgets : gmap string string) : M unit :=
  h ← get_history;
  if decide (2 ≤ length h)%nat then
    emit (Subheader "🔀 Compare Reports");;
    let filenames := map filename h in
    let file1 := selectbox filenames "report1" widgets in
    let file2 := selectbox filenames "report2" widgets in
    emit (Column 0 [Selectbox "Select First Report" filenames "report1" file1]);;
    emit (Column 1 [Selectbox "Select Second Report" filenames "report2" file2]);;
    shown ← lift (compare_lookup h file1 file2);
    match shown with
    | Some (r1, r2) => emit (report_panel 0 r1);; emit (report_panel 1 r2)
    | None => ret tt
    end
  else ret tt.
End Script.

(** ** A run of the whole script *)

(** What the page gets from the outside on one run. *)
Record inputs := Inputs {
  (** the variables of the [.env] file, empty when there is none *)
  dotenv_file : gmap string string;
  (** what [file_uploader] returns *)
  uploaded_files : list uploaded_file;
  (** whether "Analyze All" was clicked *)
  analyze_all_clicked : bool;
  (** the user's choice in each keyed widget *)
  widgets : gmap string string
}.

(** How a run ends: at the last line, at [st.stop()], or on an exception
    that reaches the top level. *)
Inductive status :=
| Completed
| Stopped
| Raised (e : exn).

(** [load_dotenv]: variables already in the environment are kept. *)
Definition load_dotenv (file env : gmap string string) : gmap string string :=
  env ∪ file.

Definition os_getenv (key : string) (s : state) : option string :=
  environ s !! key.

Definition credential_error : string :=
  "⚠️ Please set your GEMINI_API_KEY in a `.env` file.".

Definition upload_types : list string := ["jpg"; "jpeg"; "png"; "bmp"; "gif"].

Definition intro : string := "
    Upload a medical image (X-ray, MRI, CT, Ultrasound, etc.), and our AI-powered system will analyze it,  
    providing **detailed findings, diagnosis, and research insights**.
    
    ⚠️ *Disclaimer: This tool is for **educational/research purposes only** and is **not a substitute for professional medical advice**.*
    ".

Section Run.
Context {L : Libs}.

(** Lines 129-130. *)
Definition init_history : M unit :=
  fun s => match session_history s with
           | None => (set_history (Some []) s, inr tt)
           | Some _ => (s, inr tt)
           end.

(** Lines 117-130: page set-up and session history. *)
Definition setup_page : M unit :=
  emit (PageConfig "Medical Image Analysis" "wide");;
  emit (Title "🩺 AI-Powered Medical Image Analysis Tool 🔬");;
  emit (Markdown intro);;
  init_history.

(** Lines 135-161: upload and Analyze All. *)
Definition upload_images (inp : inputs) : M unit :=
  emit (SidebarHeader "Upload Your Medical Images");;
  emit (FileUploader "Choose medical images" upload_types);;
  match uploaded_files inp with
  | [] => ret tt
  | files =>
      for_each st_image files;;
      emit (SidebarButton "Analyze All");;
      if analyze_all_clicked inp then analyze_all files else ret tt
  end.

(** Lines 117-215. *)
Definition main (inp : inputs) : M unit :=
  setup_page;;
  upload_images inp;;
  display_reports;;
  compare_reports (widgets inp).

(** Lines 17-27, then the page. A run starts on an empty page. *)
Definition script (inp : inputs) (s : state) : state * status :=
  let s0 := set_page (fun _ => []) s in
  let s1 := set_environ (load_dotenv (dotenv_file inp)) s0 in
  let GEMINI_API_KEY := os_getenv "GEMINI_API_KEY" s1 in
  match GEMINI_API_KEY with
  | Some (String c k) =>
      let s2 := set_environ (insert "GOOGLE_API_KEY" (String c k)) s1 in
      match main inp s2 with
      | (s3, inr _) => (s3, Completed)
      | (s3, inl e) => (s3, Raised e)
      end
  | _ => (set_page (fun p => (p ++ [ErrorBox credential_error])%list) s1, Stopped)
  end.
End Run.

(** ** Notions used by the statements *)

(** The history as a list, empty before the first run. *)
Definition history_of (s : state) : list entry :=
  default [] (session_history s).

(** A session: the script runs once per interaction, on the state the
    previous run left. *)
Fixpoint run_session {L : Libs} (runs : list inputs) (s : state) : state :=
  match runs with
  | [] => s
  | inp :: runs' => run_session runs' (script inp s).1
  end.

(** The report an outcome of the agent becomes (lines 91 and 93). *)
Definition report_of (out : exn + string) : string :=
  match out with
  | inr content => content
  | inl e => analysis_error e
  end.

(** A computation that leaves a component of the state as it found it. *)
Definition keeps {A B} (proj : state -> B) (m : M A) : Prop :=
  forall s, proj (m s).1 = proj s.

(** The same libraries with another agent. *)
Definition with_agent (L : Libs)
    (agent : nat -> string -> option bytes -> exn + string) : Libs := {|
  image := @image L;
  image_size := @image_size L;
  pil_open := @pil_open L;
  pil_resize := @pil_resize L;
  pil_resize_size := @pil_resize_size L;
  pil_save := @pil_save L;
  st_image_encode := @st_image_encode L;
  agent_run := agent;
  pdf_render := @pdf_render L
|}.

(** The elements one entry of the history puts on the page when both its
    download buttons are accepted. *)
Definition entry_elements {L : Libs} (e : entry) : list element :=
  [ Markdown ("### 🖼️ " +:+ filename e); Markdown (report e);
    DownloadButton ("⬇️ Download " +:+ filename e +:+ " Report (TXT)")
                   (TextData (report e))
                   (filename e +:+ "_report.txt") "text/plain";
    DownloadButton ("⬇️ Download " +:+ filename e +:+ " Report (PDF)")
                   (BinaryData (create_pdf (report e)))
                   (filename e +:+ "_report.pdf") "application/pdf" ].

(** The plain-text artifact a page element offers: file name and content. *)
Definition txt_artifact (el : element) : option (string * string) :=
  match el with
  | DownloadButton _ (TextData body) file_name mime =>
      if decide (mime = "text/plain") then Some (file_name, body) else None
  | _ => None
  end.

(** The report panels of the comparison view that a page shows. *)
Definition is_panel (el : element) : bool :=
  match el with
  | Column _ (Markdown _ :: _) => true
  | _ => false
  end.

Definition panels (pg : list element) : list element :=
  List.filter is_panel pg.

(** [sub in s] *)
Definition contains (sub s : string) : Prop :=
  exists pre post, s = pre +:+ sub +:+ post.

Fixpoint starts_with (p s : string) : bool :=
  match p, s with
  | EmptyString, _ => true
  | String a p', String b s' => Ascii.eqb a b && starts_with p' s'
  | String _ _, EmptyString => false
  end.

Fixpoint substringb (sub s : string) : bool :=
  starts_with sub s ||
  match s with
  | EmptyString => false
  | String _ s' => substringb sub s'
  end.

(** The height as the specification words it, in exact arithmetic:
    [floor(500 / (w / h))]. *)
Definition spec_height (w h : Z) : Z :=
  Qfloor (inject_Z 500 / (inject_Z w / inject_Z h))%Q.

(** The real number a positive binary float stands for, and the relative
    error bound [2^-51] used for one division. *)
Module Binary.
Definition bpow (e : Z) : R := powerRZ 2 e.
Definition F2R (m : positive) (e : Z) : R := (IZR (Zpos m) * bpow e)%R.
Definition u : R := (/ IZR (2 ^ 51))%R.
(** the mantissa of [float(500)] *)
Definition f500 : positive := 8796093022208000.
End Binary.

(** The menu defaults as the specification words them: the first entry
    and the first later entry with another name. *)
Definition first_two_distinct (names : list string) : option (string * string) :=
  match names with
  | [] => None
  | a :: rest =>
      match List.find (fun b => bool_decide (b ≠ a)) rest with
      | Some b => Some (a, b)
      | None => None
      end
  end.

(** ** A small instance of the libraries

    Images are their sizes; a file decodes when it has at least three
    bytes, which give the width and the height; the agent is a parameter. *)
Module Toy.
(** Width is the first byte plus 256 times the third, height the second. *)
Definition decode (data : bytes) : exn + (Z * Z) :=
  match data with
  | w :: h :: k :: _ =>
      inr (Z.of_N (Byte.to_N w) + 256 * Z.of_N (Byte.to_N k),
           Z.of_N (Byte.to_N h))%Z
  | _ => inl (Exn "UnidentifiedImageError" "cannot identify image file")
  end.

Definition resize (_ : Z * Z) (size : Z * Z) : exn + (Z * Z) :=
  if (0 <? size.1)%Z && (0 <? size.2)%Z then inr size
  else inl (ValueError "height and width must be > 0").

Definition resize_size (img size rz : Z * Z) :
  resize img size = inr rz -> rz = size.
Proof. unfold resize. destruct (_ && _); congruence. Qed.

Definition show (n : Z) : string := NilZero.string_of_int (Z.to_int n).

(** The saved file spells the size out. *)
Definition save (img : Z * Z) : exn * bytes + bytes :=
  inr (list_byte_of_string (show img.1 +:+ "x" +:+ show img.2)).

Definition libs (agent : nat -> string -> option bytes -> exn + string) : Libs := {|
  image := Z * Z;
  image_size := fun size => size;
  pil_open := decode;
  pil_resize := resize;
  pil_resize_size := resize_size;
  pil_save := save;
  st_image_encode := fun _ => inr tt;
  agent_run := agent;
  pdf_render := fun lines => []
|}.

(** An agent that answers, one that answers with what it was sent, and one
    that cannot reach the network. *)
Definition online : Libs :=
  libs (fun _ _ _ => inr "### 1. Image Type & Region").
Definition echo : Libs :=
  libs (fun _ _ img => inr (string_of_list_byte (default [] img))).
Definition offline : Libs :=
  libs (fun _ _ _ => inl (Exn "ConnectionError" "network is unreachable")).

(** A 100x151 image, a 1001x2 image, and a file that is no image. *)
Definition scan : bytes := [Byte.x64; Byte.x97; Byte.x00].
Definition strip : bytes := [Byte.xe9; Byte.x02; Byte.x03].
Definition corrupt : bytes := [].

Definition fresh : state := State ∅ {["GEMINI_API_KEY" := "k"]} 0 None [].

Definition two_reports : list entry :=
  [Entry "chest1.png" "report one"; Entry "chest2.png" "report two"].
End Toy.

(** ** Further notions used by the statements *)

(** The document artifact a page element offers: file name and content. *)
Definition pdf_artifact (el : element) : option (string * bytes) :=
  match el with
  | DownloadButton _ (BinaryData body) file_name mime =>
      if decide (mime = "application/pdf") then Some (file_name, body) else None
  | _ => None
  end.

(** [c in s] for a character. *)
Fixpoint occurs (c : ascii) (s : string) : bool :=
  match s with
  | EmptyString => false
  | String a s' => Ascii.eqb a c || occurs c s'
  end.

(** [s.count(c)] *)
Fixpoint count_char (c : ascii) (s : string) : nat :=
  match s with
  | EmptyString => 0
  | String a s' => (if Ascii.eqb a c then 1 else 0) + count_char c s'
  end.

(** The paths the Analyze All loop writes for a list of uploads. *)
Definition temp_paths (files : list uploaded_file) : list string :=
  temp_path :: map image_path_of files.

(** What an analysis can change: storage, the number of model calls and
    the history. *)
Definition analysis_state (s : state) : gmap string bytes * nat * list entry :=
  (fs s, calls s, history_of s).

(** The elements of a page that show results: section headings, download
    buttons and columns. *)
Definition result_element (el : element) : option element :=
  match el with
  | Subheader _ | DownloadButton _ _ _ _ | Column _ _ => Some el
  | _ => None
  end.

Definition results (pg : list element) : list element :=
  omap result_element pg.

(** A view [g] of the page that sees none of the elements of the page
    head and the sidebar. *)
Definition blind_to_controls {B} (g : element -> option B) : Prop :=
  forall el,
    match el with
    | PageConfig _ _ | Title _ | Markdown _ | SidebarHeader _
    | FileUploader _ _ | ImageView _ | SidebarButton _ | Spinner _ => g el = None
    | _ => True
    end.

(** The identities of the two download buttons of the entries named [f]. *)
Definition txt_id (f : string) : string * string * string :=
  ("⬇️ Download " +:+ f +:+ " Report (TXT)", f +:+ "_report.txt", "text/plain").
Definition pdf_id (f : string) : string * string * string :=
  ("⬇️ Download " +:+ f +:+ " Report (PDF)", f +:+ "_report.pdf", "application/pdf").

(** The identities registered by the page of a state. *)
Definition ids (s : state) : list (string * string * string) :=
  omap element_id (page s).

(** The exception of a repeated download button. *)
Definition duplicate_button : exn := StreamlitDuplicateElementId "download_button".

(** What a failed [save] can leave of the storage [m]: [m] itself, or
    [m] with other content in a resized copy that was there already. *)
Definition after_failed_save (m m' : gmap string bytes) : Prop :=
  m' = m \/ exists written, is_Some (m !! temp_path) /\ m' = <[temp_path := written]> m.

(** The columns of a page: the comparison view is the only part of the
    script that lays elements out in columns. *)
Definition column_of (el : element) : option element :=
  match el with
  | Column _ _ => Some el
  | _ => None
  end.

Definition columns (pg : list element) : list element := omap column_of pg.

(** The state in which the body of the Analyze All loop calls
    [analyze_medical_image]: the spinner is shown and the upload's copy
    is written. *)
Definition loop_state (up : uploaded_file) (s : state) : state :=
  set_fs (insert (image_path_of up) (getbuffer up))
    (set_page (fun p => (p ++ [Spinner ("🔍 Analyzing " +:+ name up +:+ "...")])%list) s).

(** * Properties *)

(** ** Equations of the monad *)

Lemma bind_ok {A B} (m : M A) (k : A -> M B) s s' a :
  m s = (s', inr a) -> (m ≫= k) s = k a s'.
Proof. intros H. unfold mbind, M_bind, bind. now rewrite H. Qed.

Lemma bind_err {A B} (m : M A) (k : A -> M B) s s' e :
  m s = (s', inl e) -> (m ≫= k) s = (s', inl e).
Proof. intros H. unfold mbind, M_bind, bind. now rewrite H. Qed.

(** ** Strings *)

Lemma starts_with_app p s : starts_with p (p +:+ s) = true.
Proof.
  induction p as [|a p IH]; simpl; [reflexivity|].
  now rewrite Ascii.eqb_refl, IH.
Qed.

Lemma contains_substringb sub s : contains sub s -> substringb sub s = true.
Proof.
  intros (pre & post & ->). induction pre as [|a pre IH].
  - simpl. destruct (sub +:+ post) eqn:E; simpl; rewrite <- ?E;
      now rewrite starts_with_app.
  - simpl. rewrite IH. apply orb_true_r.
Qed.

(** ** Binary64 division *)

Module FloatFacts.
Import Binary.
Local Open Scope Z_scope.

Ltac pow_atoms :=
  repeat match goal with
         | |- context [Z.pow 2 ?e] => generalize dependent (Z.pow 2 e); intros
         | H : context [Z.pow 2 ?e] |- _ => generalize dependent (Z.pow 2 e); intros
         end.

Lemma digits2_pos_bounds (p : positive) :
  2 ^ (Zpos (digits2_pos p) - 1) <= Zpos p < 2 ^ Zpos (digits2_pos p).
Proof.
  induction p as [p IH|p IH|]; cbn [digits2_pos].
  - rewrite Pos2Z.inj_succ. change (Zpos p~1) with (2 * Zpos p + 1).
    replace (Z.succ (Zpos (digits2_pos p)) - 1)
      with (Z.succ (Zpos (digits2_pos p) - 1)) by lia.
    rewrite !Z.pow_succ_r by lia. pow_atoms. lia.
  - rewrite Pos2Z.inj_succ. change (Zpos p~0) with (2 * Zpos p).
    replace (Z.succ (Zpos (digits2_pos p)) - 1)
      with (Z.succ (Zpos (digits2_pos p) - 1)) by lia.
    rewrite !Z.pow_succ_r by lia. pow_atoms. lia.
  - cbn. lia.
Qed.

Lemma digits2_pos_unique (p : positive) (k : Z) :
  2 ^ (k - 1) <= Zpos p < 2 ^ k -> Zpos (digits2_pos p) = k.
Proof.
  intros [Hlo Hhi]. pose proof (digits2_pos_bounds p) as [Dlo Dhi].
  set (d := Zpos (digits2_pos p)) in *.
  assert (0 < d) by (subst d; lia).
  assert (0 < k).
  { destruct (Z_lt_le_dec 0 k) as [|Hk]; [assumption|exfalso].
    destruct (Z.eq_dec k 0) as [->|]; [cbn in Hhi; lia|].
    rewrite (Z.pow_neg_r 2 k) in Hhi by lia. lia. }
  destruct (Z.lt_trichotomy d k) as [Hlt|[Heq|Hgt]]; [|assumption|].
  - assert (2 ^ d <= 2 ^ (k - 1)) by (apply Z.pow_le_mono_r; lia).
    pow_atoms. lia.
  - assert (2 ^ k <= 2 ^ (d - 1)) by (apply Z.pow_le_mono_r; lia).
    pow_atoms. lia.
Qed.

(** [shr_1] halves the mantissa. *)
Lemma shr_1_m (mrs : shr_record) :
  0 <= shr_m mrs -> shr_m (shr_1 mrs) = shr_m mrs / 2.
Proof.
  destruct mrs as [m r s]. cbn [shr_m]. intros Hm. unfold shr_1.
  destruct m as [|[p|p|]|p]; cbn [shr_m]; try lia.
  - reflexivity.
  - change (Zpos p~1) with (2 * Zpos p + 1). apply (Z.div_unique _ _ _ 1); lia.
  - change (Zpos p~0) with (2 * Zpos p). apply (Z.div_unique _ _ _ 0); lia.
  - reflexivity.
Qed.

Lemma shr_record_of_loc_m m l : shr_m (shr_record_of_loc m l) = m.
Proof. destruct l as [|[]]; reflexivity. Qed.

Lemma loc_of_shr_record_of_loc m l :
  loc_of_shr_record (shr_record_of_loc m l) = l.
Proof. destruct l as [|[]]; reflexivity. Qed.

Lemma round_nearest_even_bounds m l :
  m <= round_nearest_even m l <= m + 1.
Proof.
  unfold round_nearest_even. destruct l as [|[]]; try destruct (Z.even m); lia.
Qed.

Lemma fexp_normal e :
  -1074 <= e - 53 -> fexp PyFloat.prec PyFloat.emax e = e - 53.
Proof. unfold fexp, emin, PyFloat.prec, PyFloat.emax. lia. Qed.

(** [shr_fexp] on a mantissa of 53 digits in the normal range: nothing moves. *)
Lemma shr_fexp_53 (m : positive) e l :
  2 ^ 52 <= Zpos m < 2 ^ 53 -> -1074 <= e ->
  shr_fexp PyFloat.prec PyFloat.emax (Zpos m) e l
  = (shr_record_of_loc (Zpos m) l, e).
Proof.
  intros Hm He. unfold shr_fexp. cbn [Zdigits2].
  rewrite (digits2_pos_unique m 53) by (cbn; lia).
  rewrite fexp_normal by lia.
  replace (53 + e - 53 - e) with 0 by lia. reflexivity.
Qed.

(** ... and on one of 54 digits: one bit is shifted out. *)
Lemma shr_fexp_54 (m : positive) e l :
  2 ^ 53 <= Zpos m < 2 ^ 54 -> -1074 <= e + 1 ->
  shr_fexp PyFloat.prec PyFloat.emax (Zpos m) e l
  = (shr_1 (shr_record_of_loc (Zpos m) l), e + 1).
Proof.
  intros Hm He. unfold shr_fexp. cbn [Zdigits2].
  rewrite (digits2_pos_unique m 54) by (cbn; lia).
  rewrite fexp_normal by lia.
  replace (54 + e - 53 - e) with 1 by lia. reflexivity.
Qed.

Ltac pow_consts :=
  change (2 ^ 52) with 4503599627370496 in *;
  change (2 ^ 53) with 9007199254740992 in *;
  change (2 ^ 54) with 18014398509481984 in *.

(** The second [shr_fexp] of [binary_round_aux]: a rounded mantissa that
    reached [2^53] is renormalised, exactly. *)
Lemma renormalise (m2 : Z) (e : Z) :
  2 ^ 52 <= m2 <= 2 ^ 53 -> -1074 <= e ->
  exists mrs m3 t,
    shr_fexp PyFloat.prec PyFloat.emax m2 e loc_Exact = (mrs, e + t) /\
    shr_m mrs = Zpos m3 /\ 0 <= t <= 1 /\
    2 ^ 52 <= Zpos m3 < 2 ^ 53 /\ Zpos m3 * 2 ^ t = m2.
Proof.
  intros Hm He. destruct m2 as [|p|p]; [cbn in Hm; lia| |lia].
  destruct (Z_lt_le_dec (Zpos p) (2 ^ 53)) as [Hlt|Hge].
  - eexists _, p, 0. rewrite shr_fexp_53 by lia.
    rewrite Z.add_0_r. split; [reflexivity|]. split; [reflexivity|].
    pow_consts. change (2 ^ 0) with 1. lia.
  - assert (Hp : p = 9007199254740992%positive) by (pow_consts; lia).
    subst p. eexists _, 4503599627370496%positive, 1.
    rewrite shr_fexp_54 by (pow_consts; lia).
    split; [reflexivity|]. split; [vm_compute; reflexivity|].
    split; [lia|]. split; vm_compute; intuition discriminate.
Qed.

(** [binary_round_aux] on a quotient of 53 or 54 digits in the normal
    range: a mantissa of 53 digits, at most two units of the quotient's
    scale away from it. *)
Lemma round_aux_normal (q : positive) (e : Z) (l : location) :
  2 ^ 52 <= Zpos q < 2 ^ 54 -> -1074 <= e -> e + 2 <= 971 ->
  exists m3 t,
    binary_round_aux PyFloat.prec PyFloat.emax false (Zpos q) e l
    = S754_finite false m3 (e + t) /\
    0 <= t <= 2 /\ 2 ^ 52 <= Zpos m3 < 2 ^ 53 /\
    Zpos q - 1 <= Zpos m3 * 2 ^ t <= Zpos q + 2.
Proof.
  intros Hq He Hmax. unfold binary_round_aux.
  destruct (Z_lt_le_dec (Zpos q) (2 ^ 53)) as [Hlt|Hge].
  - rewrite shr_fexp_53 by lia.
    rewrite shr_record_of_loc_m, loc_of_shr_record_of_loc.
    pose proof (round_nearest_even_bounds (Zpos q) l) as Hr.
    destruct (renormalise (round_nearest_even (Zpos q) l) e)
      as (mrs & m3 & t & -> & -> & Ht & Hm3 & Hv); [lia|lia|].
    exists m3, t.
    rewrite (proj2 (Z.leb_le _ _)) by (unfold PyFloat.emax, PyFloat.prec; lia).
    split; [reflexivity|]. split; [lia|]. split; [lia|]. lia.
  - rewrite shr_fexp_54 by lia.
    pose proof (shr_1_m (shr_record_of_loc (Zpos q) l)) as Hh.
    rewrite shr_record_of_loc_m in Hh. specialize (Hh ltac:(lia)).
    set (mrs1 := shr_1 (shr_record_of_loc (Zpos q) l)) in *.
    pose proof (round_nearest_even_bounds (shr_m mrs1) (loc_of_shr_record mrs1)) as Hr.
    assert (Hq2 : 2 * (Zpos q / 2) <= Zpos q <= 2 * (Zpos q / 2) + 1).
    { pose proof (Z.div_mod (Zpos q) 2 ltac:(lia)).
      pose proof (Z.mod_pos_bound (Zpos q) 2 ltac:(lia)). lia. }
    destruct (renormalise (round_nearest_even (shr_m mrs1) (loc_of_shr_record mrs1)) (e + 1))
      as (mrs & m3 & t & -> & -> & Ht & Hm3 & Hv); [pow_consts; lia|lia|].
    exists m3, (1 + t). rewrite Z.add_assoc.
    rewrite (proj2 (Z.leb_le _ _)) by (unfold PyFloat.emax, PyFloat.prec; lia).
    split; [reflexivity|]. split; [lia|]. split; [lia|].
    rewrite Z.pow_add_r by lia. change (2 ^ 1) with 2. pow_consts. lia.
Qed.

(** The quotient of two positive binary numbers whose result is in the
    normal range: [SFdiv] returns a 53-digit mantissa within two units of
    the integer quotient taken at the scale [2^(d - 53)]. *)
Lemma SFdiv_normal (mx my : positive) (ex ey : Z) :
  let dx := Zpos (digits2_pos mx) in
  let dy := Zpos (digits2_pos my) in
  let d := dx + ex - (dy + ey) in
  let s := 53 - dx + dy in
  0 < s -> -1074 <= d - 53 -> d - 51 <= 971 ->
  exists m3 t,
    SFdiv PyFloat.prec PyFloat.emax (S754_finite false mx ex) (S754_finite false my ey)
    = S754_finite false m3 (d - 53 + t) /\
    0 <= t <= 2 /\ 2 ^ 52 <= Zpos m3 < 2 ^ 53 /\
    2 ^ 52 <= Zpos mx * 2 ^ s / Zpos my /\
    Zpos mx * 2 ^ s / Zpos my - 1 <= Zpos m3 * 2 ^ t
      <= Zpos mx * 2 ^ s / Zpos my + 2.
Proof.
  intros dx dy d s Hs Hlo Hhi.
  unfold SFdiv, SFdiv_core_binary. cbn [Zdigits2 xorb].
  fold dx dy. fold d.
  rewrite fexp_normal by lia.
  rewrite Z.min_l by lia.
  replace (ex - ey - (d - 53)) with s by (unfold d, s; lia).
  destruct s as [|ps|ps] eqn:Es; [lia| |lia]. rewrite <- Es.
  rewrite Z.shiftl_mul_pow2 by lia.
  pose proof (digits2_pos_bounds mx) as [Xlo Xhi].
  pose proof (digits2_pos_bounds my) as [Ylo Yhi].
  fold dx in Xlo, Xhi. fold dy in Ylo, Yhi.
  assert (Hdx : 0 < dx) by (unfold dx; lia).
  assert (Hdy : 0 < dy) by (unfold dy; lia).
  assert (E1 : 2 ^ s * 2 ^ (dx - 1) = 2 ^ 53 * 2 ^ (dy - 1)).
  { rewrite <- !Z.pow_add_r by lia. f_equal. lia. }
  assert (E2 : 2 ^ dx = 2 * 2 ^ (dx - 1)).
  { rewrite <- Z.pow_succ_r by lia. f_equal. lia. }
  assert (E3 : 2 ^ dy = 2 * 2 ^ (dy - 1)).
  { rewrite <- Z.pow_succ_r by lia. f_equal. lia. }
  assert (P1 : 0 < 2 ^ s) by (apply Z.pow_pos_nonneg; lia).
  assert (P2 : 0 < 2 ^ (dy - 1)) by (apply Z.pow_pos_nonneg; lia).
  assert (Q : 2 ^ 52 <= Zpos mx * 2 ^ s / Zpos my < 2 ^ 54).
  { pow_consts. split.
    - apply Z.div_le_lower_bound; [lia|].
      rewrite E2, E3 in *.
      generalize dependent (2 ^ s). generalize dependent (2 ^ (dx - 1)).
      generalize dependent (2 ^ (dy - 1)). intros. nia.
    - apply Z.div_lt_upper_bound; [lia|].
      rewrite E2, E3 in *.
      generalize dependent (2 ^ s). generalize dependent (2 ^ (dx - 1)).
      generalize dependent (2 ^ (dy - 1)). intros. nia. }
  unfold Z.div in Q |- *.
  destruct (Z.div_eucl (Zpos mx * 2 ^ s) (Zpos my)) as [q r].
  cbn [fst] in Q |- *.
  destruct q as [|pq|pq]; [pow_consts; lia| |pow_consts; lia].
  destruct (round_aux_normal pq (d - 53) (new_location (Zpos my) r))
    as (m3 & t & E & Ht & Hm & Hq); [lia|lia|lia|].
  exists m3, t. repeat split; try assumption; lia.
Qed.

(** *** The same, over the reals *)

Local Open Scope R_scope.


Lemma bpow_pos e : 0 < bpow e.
Proof. apply powerRZ_lt. lra. Qed.

Lemma bpow_add a b : bpow (a + b) = bpow a * bpow b.
Proof. apply powerRZ_add. lra. Qed.

Lemma bpow_IZR (k : Z) : (0 <= k)%Z -> IZR (2 ^ k) = bpow k.
Proof.
  intros Hk. unfold bpow. rewrite <- (Z2Nat.id k Hk) at 1 2.
  rewrite <- pow_IZR. apply pow_powerRZ.
Qed.

Lemma F2R_pos m e : 0 < F2R m e.
Proof.
  unfold F2R. apply Rmult_lt_0_compat; [apply IZR_lt; lia|apply bpow_pos].
Qed.

Lemma SFdiv_relative (mx my : positive) (ex ey : Z) :
  let dx := Zpos (digits2_pos mx) in
  let dy := Zpos (digits2_pos my) in
  let d := (dx + ex - (dy + ey))%Z in
  (dx - dy < 53)%Z -> (-1074 <= d - 53)%Z -> (d - 51 <= 971)%Z ->
  exists m3 t,
    SFdiv PyFloat.prec PyFloat.emax (S754_finite false mx ex) (S754_finite false my ey)
    = S754_finite false m3 (d - 53 + t) /\
    (0 <= t <= 2)%Z /\ (2 ^ 52 <= Zpos m3 < 2 ^ 53)%Z /\
    (1 - u) * (F2R mx ex / F2R my ey) <= F2R m3 (d - 53 + t)
      <= (1 + u) * (F2R mx ex / F2R my ey).
Proof.
  intros dx dy d Hs Hlo Hhi.
  destruct (SFdiv_normal mx my ex ey) as (m3 & t & E & Ht & Hm & Hq52 & Hq);
    [fold dx dy; lia|fold dx dy d; lia|fold dx dy d; lia|].
  fold dx dy d in E, Hq, Hq52. set (s := (53 - dx + dy)%Z) in *.
  exists m3, t. split; [exact E|]. split; [exact Ht|]. split; [exact Hm|].
  set (q := (Zpos mx * 2 ^ s / Zpos my)%Z) in *.
  assert (Hdiv : (q * Zpos my <= Zpos mx * 2 ^ s < (q + 1) * Zpos my)%Z).
  { unfold q. pose proof (Z.mul_div_le (Zpos mx * 2 ^ s) (Zpos my) ltac:(lia)).
    pose proof (Z.mul_succ_div_gt (Zpos mx * 2 ^ s) (Zpos my) ltac:(lia)). lia. }
  (* real counterparts *)
  assert (Ry : 0 < IZR (Zpos my)) by (apply IZR_lt; lia).
  assert (D1 : IZR q * IZR (Zpos my) <= IZR (Zpos mx) * bpow s).
  { rewrite <- bpow_IZR, <- !mult_IZR by (unfold s; lia). apply IZR_le. lia. }
  assert (D2 : IZR (Zpos mx) * bpow s < (IZR q + 1) * IZR (Zpos my)).
  { rewrite <- bpow_IZR, <- plus_IZR, <- !mult_IZR by (unfold s; lia).
    apply IZR_lt. lia. }
  assert (M1 : IZR q - 1 <= IZR (Zpos m3) * bpow t).
  { rewrite <- bpow_IZR, <- minus_IZR, <- mult_IZR by lia. apply IZR_le. lia. }
  assert (M2 : IZR (Zpos m3) * bpow t <= IZR q + 2).
  { rewrite <- bpow_IZR, <- plus_IZR, <- mult_IZR by lia. apply IZR_le. lia. }
  assert (Q52 : IZR (2 ^ 52) <= IZR q) by (apply IZR_le; lia).
  set (b := bpow (d - 53)).
  assert (Hb : 0 < b) by apply bpow_pos.
  set (X := IZR (Zpos mx) * bpow s / IZR (Zpos my)).
  assert (HX : X * IZR (Zpos my) = IZR (Zpos mx) * bpow s).
  { unfold X. field. lra. }
  assert (X1 : IZR q <= X).
  { apply (Rmult_le_reg_r (IZR (Zpos my))); [exact Ry|]. rewrite HX. exact D1. }
  assert (X2 : X < IZR q + 1).
  { apply (Rmult_lt_reg_r (IZR (Zpos my))); [exact Ry|]. rewrite HX. exact D2. }
  assert (Equot : F2R mx ex / F2R my ey = X * b).
  { unfold F2R, X, b.
    replace ex with (ey + (s + (d - 53)))%Z at 1 by (unfold s, d; lia).
    rewrite !bpow_add. field.
    pose proof (bpow_pos ey). split; lra. }
  assert (Ev : F2R m3 (d - 53 + t) = IZR (Zpos m3) * bpow t * b).
  { unfold F2R, b. rewrite bpow_add. ring. }
  rewrite Equot, Ev.
  assert (U : 2 <= u * X).
  { unfold u. change (2 ^ 52)%Z with (2 * 2 ^ 51)%Z in Q52.
    rewrite mult_IZR in Q52.
    assert (0 < IZR (2 ^ 51)) by (apply IZR_lt; reflexivity).
    apply (Rmult_le_reg_l (IZR (2 ^ 51))); [assumption|].
    rewrite <- Rmult_assoc, Rinv_r by lra. lra. }
  split.
  - replace ((1 - u) * (X * b)) with ((X - u * X) * b) by ring.
    apply Rmult_le_compat_r; lra.
  - replace ((1 + u) * (X * b)) with ((X + u * X) * b) by ring.
    apply Rmult_le_compat_r; lra.
Qed.

(** *** The height of the resized image *)

Lemma of_int_500 : PyFloat.of_int 500 = inr (S754_finite false f500 (-44)).
Proof. vm_compute. reflexivity. Qed.

Lemma F2R_500 : F2R f500 (-44) = 500.
Proof.
  unfold F2R. change (Zpos f500) with (500 * 2 ^ 44)%Z.
  rewrite mult_IZR, bpow_IZR by lia.
  rewrite Rmult_assoc, <- bpow_add. change (44 + -44)%Z with 0%Z.
  unfold bpow. cbn. ring.
Qed.

Lemma F2R_int (p : positive) : F2R p 0 = IZR (Zpos p).
Proof. unfold F2R, bpow. cbn. ring. Qed.

Lemma digits2_pos_le (p : positive) (k : Z) :
  (Zpos p < 2 ^ k)%Z -> (1 <= Zpos (digits2_pos p) <= k)%Z.
Proof.
  intros Hp. pose proof (digits2_pos_bounds p) as [Dlo _].
  split; [lia|]. destruct (Z_le_gt_dec (Zpos (digits2_pos p)) k) as [|Hgt];
    [assumption|exfalso].
  assert (2 ^ k <= 2 ^ (Zpos (digits2_pos p) - 1))%Z
    by (apply Z.pow_le_mono_r; lia).
  lia.
Qed.

(** [int(f)] is the floor of a positive [f] below [2^53]. *)
Lemma to_int_floor (m : positive) (e : Z) :
  (e < 0)%Z ->
  exists n, PyFloat.to_int (S754_finite false m e) = inr n /\
            IZR n <= F2R m e < IZR n + 1.
Proof.
  intros He. destruct e as [|k|k]; try lia.
  exists (Z.shiftr (Zpos m) (Zpos k)). split; [reflexivity|].
  rewrite Z.shiftr_div_pow2 by lia.
  set (n := (Zpos m / 2 ^ Zpos k)%Z).
  assert (P : (0 < 2 ^ Zpos k)%Z) by (apply Z.pow_pos_nonneg; lia).
  assert (Hn : (n * 2 ^ Zpos k <= Zpos m < (n + 1) * 2 ^ Zpos k)%Z).
  { unfold n. pose proof (Z.mul_div_le (Zpos m) (2 ^ Zpos k) P).
    pose proof (Z.mul_succ_div_gt (Zpos m) (2 ^ Zpos k) P). lia. }
  assert (H1 : IZR n * bpow (Zpos k) <= IZR (Zpos m)).
  { rewrite <- bpow_IZR, <- mult_IZR by lia. apply IZR_le. lia. }
  assert (H2 : IZR (Zpos m) < (IZR n + 1) * bpow (Zpos k)).
  { rewrite <- bpow_IZR, <- plus_IZR, <- mult_IZR by lia. apply IZR_lt. lia. }
  unfold F2R.
  assert (Hc : bpow (Zneg k) * bpow (Zpos k) = 1).
  { rewrite <- bpow_add. change (Zneg k + Zpos k)%Z with (- Zpos k + Zpos k)%Z.
    rewrite Z.add_opp_diag_l. reflexivity. }
  pose proof (bpow_pos (Zneg k)). pose proof (bpow_pos (Zpos k)).
  generalize dependent (bpow (Zneg k)). generalize dependent (bpow (Zpos k)).
  intros P' H1 H2 HP' c Hc Hcpos. split.
  - replace (IZR n) with (IZR n * P' * c) by (rewrite Rmult_assoc, (Rmult_comm P'), Hc; ring).
    apply Rmult_le_compat_r; lra.
  - replace (IZR n + 1) with ((IZR n + 1) * P' * c) by (rewrite Rmult_assoc, (Rmult_comm P'), Hc; ring).
    apply Rmult_lt_compat_r; lra.
Qed.

(** Two divisions of relative error [u] and a truncation, on image sizes:
    the result is the exact floor or one less. *)
Lemma height_arith (rw rh A B rn rnh : R) :
  1 <= rw <= IZR (2 ^ 31) -> 1 <= rh <= IZR (2 ^ 31) ->
  0 <= rn -> rn * rw <= 500 * rh -> 500 * rh + 1 <= (rn + 1) * rw ->
  (1 - u) * (rw / rh) <= A <= (1 + u) * (rw / rh) ->
  (1 - u) * (500 / A) <= B <= (1 + u) * (500 / A) ->
  rnh <= B < rnh + 1 ->
  rn - 2 < rnh < rn + 1.
Proof.
  unfold u. change (IZR (2 ^ 51)) with 2251799813685248.
  change (IZR (2 ^ 31)) with 2147483648.
  intros Hw Hh Hn Hlo Hhi HA HB Hnh.
  set (a := rw / rh) in *.
  assert (Ha : 0 < a) by (unfold a; apply Rdiv_lt_0_compat; lra).
  assert (HApos : 0 < A) by lra.
  set (c := 500 / A) in *.
  assert (Hc : 0 < c) by (unfold c; apply Rdiv_lt_0_compat; lra).
  assert (HcA : c * A = 500) by (unfold c; field; lra).
  set (x := 500 * rh / rw).
  assert (Hxa : x * a = 500) by (unfold x, a; field; lra).
  assert (Hxw : x * rw = 500 * rh) by (unfold x; field; lra).
  assert (X1 : x <= (1 + / 2251799813685248) * c).
  { apply (Rmult_le_reg_r a); [exact Ha|]. rewrite Hxa, <- HcA.
    replace ((1 + / 2251799813685248) * c * a)
      with (c * ((1 + / 2251799813685248) * a)) by ring.
    apply Rmult_le_compat_l; lra. }
  assert (X2 : (1 - / 2251799813685248) * c <= x).
  { apply (Rmult_le_reg_r a); [exact Ha|]. rewrite Hxa, <- HcA.
    replace ((1 - / 2251799813685248) * c * a)
      with (c * ((1 - / 2251799813685248) * a)) by ring.
    apply Rmult_le_compat_l; lra. }
  assert (B1 : (1 - / 2251799813685248) * B <= (1 + / 2251799813685248) * x)
    by lra.
  assert (B2 : (1 - / 2251799813685248) * x <= (1 + / 2251799813685248) * B)
    by lra.
  assert (Xn : rn <= x).
  { apply (Rmult_le_reg_r rw); [lra|]. lra. }
  assert (Nb : rn <= 500 * 2147483648).
  { assert (rn * 1 <= rn * rw) by (apply Rmult_le_compat_l; lra). lra. }
  split.
  - destruct (Rlt_le_dec (rn - 2) rnh) as [|Hc']; [assumption|exfalso]. lra.
  - destruct (Rlt_le_dec rnh (rn + 1)) as [|Hc']; [assumption|exfalso].
    assert (Y : (rn + 1) * rw <= B * rw) by (apply Rmult_le_compat_r; lra).
    assert (Z1 : (1 - / 2251799813685248) * (B * rw)
                 <= (1 + / 2251799813685248) * (500 * rh)).
    { rewrite <- Hxw.
      replace ((1 - / 2251799813685248) * (B * rw))
        with ((1 - / 2251799813685248) * B * rw) by ring.
      replace ((1 + / 2251799813685248) * (x * rw))
        with ((1 + / 2251799813685248) * x * rw) by ring.
      apply Rmult_le_compat_r; lra. }
    lra.
Qed.

Lemma digits2_f500 : Zpos (digits2_pos f500) = 53%Z.
Proof. vm_compute. reflexivity. Qed.

(** Lines 79-81 on the sizes an image can have: no exception, and the
    floor of the exact quotient or one less. *)
Lemma new_height_bounds (w h : Z) :
  (0 < w < 2 ^ 31)%Z -> (0 < h < 2 ^ 31)%Z ->
  exists nh, new_height w h = inr nh /\
             (500 * h / w - 1 <= nh <= 500 * h / w)%Z.
Proof.
  intros Hw Hh.
  destruct w as [|pw|pw]; [lia| |lia]. destruct h as [|ph|ph]; [lia| |lia].
  pose proof (digits2_pos_le pw 31 (proj2 Hw)) as Dw.
  pose proof (digits2_pos_le ph 31 (proj2 Hh)) as Dh.
  (* w / h *)
  pose proof (SFdiv_relative pw ph 0 0) as H1. cbv zeta in H1.
  destruct H1 as (ma & t1 & E1 & Ht1 & Hma & HA); [lia|lia|lia|].
  set (ea := (Zpos (digits2_pos pw) + 0 - (Zpos (digits2_pos ph) + 0) - 53 + t1)%Z) in *.
  assert (Hea : (-84 <= ea <= -20)%Z) by (unfold ea; lia).
  (* 500 / (w / h) *)
  pose proof (SFdiv_relative f500 ma (-44) ea) as H2. cbv zeta in H2.
  rewrite digits2_f500, (digits2_pos_unique ma 53) in H2 by (cbn; lia).
  destruct H2 as (mb & t2 & E2 & Ht2 & Hmb & HB); [lia|lia|lia|].
  set (eb := (53 + -44 - (53 + ea) - 53 + t2)%Z) in *.
  assert (Heb : (eb < 0)%Z) by (unfold eb; lia).
  destruct (to_int_floor mb eb Heb) as (nh & E3 & Hnh).
  exists nh. split.
  { unfold new_height, PyFloat.int_truediv. cbn [Z.eqb PyFloat.of_Z_exact].
    rewrite E1. unfold PyFloat.int_float_truediv, new_width.
    rewrite of_int_500. unfold PyFloat.float_truediv. cbn [PyFloat.is_zero].
    rewrite E2. exact E3. }
  rewrite !F2R_int in HA. rewrite F2R_500 in HB.
  set (n := (500 * Zpos ph / Zpos pw)%Z).
  assert (Hn : (n * Zpos pw <= 500 * Zpos ph < (n + 1) * Zpos pw)%Z).
  { unfold n. pose proof (Z.mul_div_le (500 * Zpos ph) (Zpos pw) ltac:(lia)).
    pose proof (Z.mul_succ_div_gt (500 * Zpos ph) (Zpos pw) ltac:(lia)). lia. }
  assert (Hn0 : (0 <= n)%Z) by (unfold n; apply Z.div_pos; lia).
  destruct (height_arith (IZR (Zpos pw)) (IZR (Zpos ph)) (F2R ma ea) (F2R mb eb)
              (IZR n) (IZR nh)) as [L1 L2].
  - split; apply IZR_le; lia.
  - split; apply IZR_le; lia.
  - apply IZR_le; lia.
  - change 500 with (IZR 500). rewrite <- !mult_IZR. apply IZR_le. lia.
  - change 500 with (IZR 500). change 1 with (IZR 1).
    rewrite <- !mult_IZR, <- !plus_IZR, <- mult_IZR. apply IZR_le. lia.
  - exact HA.
  - exact HB.
  - exact Hnh.
  - change 2 with (IZR 2) in L1. change 1 with (IZR 1) in L2.
    rewrite <- minus_IZR in L1. rewrite <- plus_IZR in L2.
    apply lt_IZR in L1, L2. lia.
Qed.

Lemma spec_height_eq (w h : Z) :
  (0 < w)%Z -> (0 < h)%Z -> spec_height w h = (500 * h / w)%Z.
Proof.
  intros Hw Hh. destruct w as [|pw|pw]; [lia| |lia].
  destruct h as [|ph|ph]; [lia| |lia]. unfold spec_height.
  assert (E : (inject_Z 500 / (inject_Z (Zpos pw) / inject_Z (Zpos ph))
               == (500 * Zpos ph) # pw)%Q).
  { unfold Qdiv, Qinv at 2, Qmult at 2, inject_Z. cbn [Qnum Qden].
    rewrite Z.mul_1_r. unfold Qinv, Qmult, Qeq. cbn [Qnum Qden]. lia. }
  rewrite (Qfloor_comp _ _ E). reflexivity.
Qed.
End FloatFacts.

(** ** One analysis *)

Section Decoded.
Context {L : Libs}.
Variables (s : state) (path : string) (data : bytes) (img : image)
          (w h nh : Z) (rz : image).
Hypothesis H_file : fs s !! path = Some data.
Hypothesis H_open : pil_open data = inr img.
Hypothesis H_size : image_size img = (w, h).
Hypothesis H_height : new_height w h = inr nh.

(** The exception of [resize] leaves the function: nothing was written. *)
Lemma analyze_resize_raises e :
  pil_resize img (new_width, nh) = inl e ->
  analyze_medical_image path s = (s, inl e).
Proof.
  intros H_resize. unfold analyze_medical_image.
  erewrite bind_ok; [|unfold PILImage_open; rewrite H_file, H_open; reflexivity].
  rewrite H_size.
  erewrite bind_ok; [|unfold lift; rewrite H_height; reflexivity].
  erewrite bind_err; [reflexivity|].
  unfold lift. rewrite H_resize. reflexivity.
Qed.

Hypothesis H_resize : pil_resize img (new_width, nh) = inr rz.

(** The exception of [save] leaves the function too: a resized copy that
    was not there is not there, one that was there holds what was written. *)
Lemma analyze_save_raises e written :
  pil_save rz = inl (e, written) ->
  analyze_medical_image path s =
    (match fs s !! temp_path with
     | Some _ => set_fs (insert temp_path written) s
     | None => s
     end, inl e).
Proof.
  intros H_save. unfold analyze_medical_image.
  erewrite bind_ok; [|unfold PILImage_open; rewrite H_file, H_open; reflexivity].
  rewrite H_size.
  erewrite bind_ok; [|unfold lift; rewrite H_height; reflexivity].
  erewrite bind_ok; [|unfold lift; rewrite H_resize; reflexivity].
  erewrite bind_err; [reflexivity|].
  unfold image_save. rewrite H_save. reflexivity.
Qed.

Variable saved : bytes.
Hypothesis H_save : pil_save rz = inr saved.

(** Once the image is decoded, resized and saved, the call returns a
    string whatever the agent does, and the resized copy is gone. *)
Lemma analyze_decoded :
  analyze_medical_image path s =
    (set_fs (delete temp_path)
       (set_calls S (set_fs (insert temp_path saved) s)),
     inr (report_of (agent_run (calls s) query (Some saved)))).
Proof.
  unfold analyze_medical_image.
  erewrite bind_ok; [|unfold PILImage_open; rewrite H_file, H_open; reflexivity].
  rewrite H_size.
  erewrite bind_ok; [|unfold lift; rewrite H_height; reflexivity].
  erewrite bind_ok; [|unfold lift; rewrite H_resize; reflexivity].
  erewrite bind_ok; [|unfold image_save; rewrite H_save; reflexivity].
  unfold try_finally, try_except, medical_agent_run, os_remove.
  cbn [fs set_fs set_calls calls].
  rewrite lookup_insert_eq.
  destruct (agent_run _ _ _); unfold ret; cbn [fs set_fs set_calls calls];
    rewrite lookup_insert_eq; reflexivity.
Qed.
End Decoded.

(** ** One upload of the Analyze All loop *)

Lemma fs_after_upload (m : gmap string bytes) (ip tp : string) (b c : bytes) :
  delete ip (delete tp (<[tp:=c]> (<[ip:=b]> m))) = delete ip (delete tp m).
Proof.
  rewrite delete_insert_eq, (delete_delete _ ip tp), (delete_delete m ip tp).
  now rewrite delete_insert_eq.
Qed.

Section OneUpload.
Context {L : Libs}.
Variables (s : state) (up : uploaded_file).

(** An exception of the analysis leaves the loop body before line 161. *)
Lemma analyze_one_raises s1 e :
  analyze_medical_image (image_path_of up) (loop_state up s) = (s1, inl e) ->
  analyze_one up s = (s1, inl e).
Proof.
  intros H. unfold analyze_one.
  erewrite bind_ok; [|reflexivity].
  erewrite bind_ok; [|reflexivity].
  erewrite bind_err; [reflexivity|]. exact H.
Qed.

Variables (h0 : list entry) (img : image) (w h nh : Z).
Hypothesis H_hist : session_history s = Some h0.
Hypothesis H_open : pil_open (getbuffer up) = inr img.
Hypothesis H_size : image_size img = (w, h).
Hypothesis H_height : new_height w h = inr nh.

Lemma analyze_one_resize_raises e :
  pil_resize img (new_width, nh) = inl e ->
  analyze_one up s = (loop_state up s, inl e).
Proof.
  intros H. apply analyze_one_raises.
  eapply (analyze_resize_raises _ _ (getbuffer up)); eauto.
  unfold loop_state. cbn [fs set_fs set_page]. apply lookup_insert_eq.
Qed.

Variables (rz : image) (saved : bytes).
Hypothesis H_resize : pil_resize img (new_width, nh) = inr rz.
Hypothesis H_save : pil_save rz = inr saved.

(** A file that decodes, resizes and is saved: whatever the agent does,
    one entry is appended, and both temporary files are gone. The last
    [os.remove] fails when the upload is itself called
    [resized_image.png]. *)
Lemma analyze_one_decoded :
  analyze_one up s =
    (State (delete (image_path_of up) (delete temp_path (fs s)))
           (environ s) (S (calls s))
           (Some (h0 ++ [Entry (name up)
                    (report_of (agent_run (calls s) query (Some saved)))])%list)
           (page s ++ [Spinner ("🔍 Analyzing " +:+ name up +:+ "...")])%list,
     if decide (image_path_of up = temp_path)
     then inl (FileNotFoundError (image_path_of up)) else inr tt).
Proof.
  unfold analyze_one.
  erewrite bind_ok; [|reflexivity].
  erewrite bind_ok; [|reflexivity].
  erewrite bind_ok;
    [|eapply (analyze_decoded _ _ (getbuffer up)); eauto;
      cbn [fs set_fs set_page]; apply lookup_insert_eq].
  erewrite bind_ok;
    [|unfold history_append; cbn [session_history set_fs set_calls set_page];
      rewrite H_hist; reflexivity].
  unfold os_remove.
  cbn [fs set_fs set_calls set_page set_history calls environ session_history page].
  rewrite delete_insert_eq.
  destruct (decide (image_path_of up = temp_path)) as [E|E].
  - rewrite E, lookup_delete_eq.
    unfold set_history, set_fs, set_calls, set_page.
    cbn [fs environ calls session_history page].
    now rewrite !delete_insert_eq, delete_delete_eq.
  - rewrite lookup_delete_ne, lookup_insert_eq by congruence.
    unfold set_history, set_fs, set_calls, set_page.
    cbn [fs environ calls session_history page].
    now rewrite fs_after_upload.
Qed.
End OneUpload.

(** C1 (the code at the failing input). The upload is decoded, and
    [resize] raises (as Pillow does for an image more than 500 times as
    wide as it is high, whose requested height is 0). Line 82 is outside
    the [try], and the loop has no [finally] of its own: the exception
    leaves [analyze_medical_image] and the loop before
    [os.remove(image_path)], the run ends on it, and the per-upload
    temporary copy is still in storage. *)
Theorem upload_copy_left_behind {L : Libs} (up : uploaded_file)
    (rest : list uploaded_file) (s : state) (img : image) (w h nh : Z)
    (e : exn) :
  pil_open (getbuffer up) = inr img ->
  image_size img = (w, h) ->
  new_height w h = inr nh ->
  pil_resize img (new_width, nh) = inl e ->
  exists s', analyze_all (up :: rest) s = (s', inl e) /\
             fs s' !! image_path_of up = Some (getbuffer up).
Proof.
  intros Ho Hs Hn Hr. eexists. split.
  - unfold analyze_all. cbn [for_each].
    change (bind ?m ?k) with (m ≫= k).
    erewrite bind_err; [reflexivity|].
    eapply analyze_one_resize_raises; eauto.
  - cbn [fs set_fs set_page]. apply lookup_insert_eq.
Qed.

Lemma upload_copy_left_behind_witness :
  let s' := (@analyze_all Toy.online [UploadedFile "strip.png" Toy.strip] Toy.fresh).1 in
  fs s' !! "temp_strip.png" = Some Toy.strip.
Proof.
  destruct (@upload_copy_left_behind Toy.online
              (UploadedFile "strip.png" Toy.strip) [] Toy.fresh
              (1001, 2)%Z 1001 2 0
              (ValueError "height and width must be > 0")
              eq_refl eq_refl eq_refl eq_refl) as (s' & E & Hfs).
  cbv zeta. rewrite E. exact Hfs.
Defined.

(** The same upload in a whole run: the image is shown in the sidebar,
    Analyze All is clicked, the run ends on the exception of [resize] and
    [temp_strip.png] stays. *)
Lemma strip_upload_run :
  let inp := Inputs ∅ [UploadedFile "strip.png" Toy.strip] true ∅ in
  (@script Toy.online inp Toy.fresh).2
    = Raised (ValueError "height and width must be > 0") /\
  fs (@script Toy.online inp Toy.fresh).1 !! "temp_strip.png" = Some Toy.strip /\
  ImageView "Uploaded: strip.png" ∈ page (@script Toy.online inp Toy.fresh).1.
Proof.
  cbv zeta. split; [vm_compute; reflexivity|]. split; [vm_compute; reflexivity|].
  vm_compute. repeat constructor.
Qed.

(** C5 (amended). When the call to the model raises [e], the function
    returns the warning marker followed by [ Analysis error: ] and
    [str(e)]: the words are capitalised, so the report contains the
    literal [Analysis error]. *)
Theorem model_failure_string {L : Libs} (s : state) (path : string)
    (data : bytes) (img : image) (w h nh : Z) (rz : image) (saved : bytes)
    (e : exn) :
  fs s !! path = Some data ->
  pil_open data = inr img ->
  image_size img = (w, h) ->
  new_height w h = inr nh ->
  pil_resize img (new_width, nh) = inr rz ->
  pil_save rz = inr saved ->
  agent_run (calls s) query (Some saved) = inl e ->
  exists s' rep,
    analyze_medical_image path s = (s', inr rep) /\
    rep = "⚠️ Analysis error: " +:+ exn_str e /\
    contains "Analysis error" rep.
Proof.
  intros Hf Ho Hs Hh Hr Hsv Ha. do 2 eexists. split; [|split].
  - erewrite analyze_decoded by eauto. rewrite Ha. reflexivity.
  - reflexivity.
  - exists "⚠️ ", (": " +:+ exn_str e). reflexivity.
Qed.

Lemma model_failure_string_witness :
  exists s',
    @analyze_medical_image Toy.offline "temp_scan.png"
      (set_fs (insert "temp_scan.png" Toy.scan) Toy.fresh)
    = (s', inr "⚠️ Analysis error: network is unreachable").
Proof.
  destruct (@model_failure_string Toy.offline
              (set_fs (insert "temp_scan.png" Toy.scan) Toy.fresh)
              "temp_scan.png" Toy.scan (100, 151)%Z 100 151 754 (500, 754)%Z
              (list_byte_of_string "500x754")
              (Exn "ConnectionError" "network is unreachable"))
    as (s' & rep & E & -> & _); try (vm_compute; reflexivity).
  exists s'. exact E.
Defined.

(** C5 (counterexample). The scenario of the specification: two uploads,
    the network is down. Both stored reports read
    [⚠️ Analysis error: ...]; neither contains the literal
    [analysis error]. *)
Lemma analysis_error_not_lowercase :
  let inp := Inputs ∅ [UploadedFile "chest1.png" Toy.scan;
                       UploadedFile "chest2.png" Toy.scan] true ∅ in
  let rep := "⚠️ Analysis error: network is unreachable" in
  session_history (@script Toy.offline inp Toy.fresh).1
    = Some [Entry "chest1.png" rep; Entry "chest2.png" rep] /\
  ~ contains "analysis error" rep /\
  ~ contains "analysis error: " rep.
Proof.
  cbv zeta. split; [vm_compute; reflexivity|].
  split; intros H; apply contains_substringb in H; vm_compute in H; discriminate.
Qed.

(** C2 (amended). A failure of the model call is recovered inside
    [analyze_medical_image]: the loop body stores the report
    [⚠️ Analysis error: <str(e)>], which starts with the warning marker,
    under the file's name, and ends as it does after a successful call
    (normally, unless the upload is itself called [resized_image.png]).
    The state it leaves is the one a successful call answering that same
    text leaves, so that storage, export and comparison cannot tell the
    two apart. *)
Theorem model_failure_stored {L : Libs} (s : state) (up : uploaded_file)
    (h0 : list entry) (img : image) (w h nh : Z) (rz : image) (saved : bytes)
    (e : exn) :
  session_history s = Some h0 ->
  pil_open (getbuffer up) = inr img ->
  image_size img = (w, h) ->
  new_height w h = inr nh ->
  pil_resize img (new_width, nh) = inr rz ->
  pil_save rz = inr saved ->
  agent_run (calls s) query (Some saved) = inl e ->
  exists s' r rep,
    rep = warning_marker +:+ " Analysis error: " +:+ exn_str e /\
    analyze_one up s = (s', r) /\
    (image_path_of up <> temp_path -> r = inr tt) /\
    session_history s' = Some (h0 ++ [Entry (name up) rep])%list /\
    @analyze_one (with_agent L (fun _ _ _ => inr rep)) up s = (s', r).
Proof.
  intros Hh Ho Hs Hn Hr Hsv Ha. do 3 eexists. split; [reflexivity|]. split.
  - erewrite analyze_one_decoded by eauto. rewrite Ha. reflexivity.
  - split; [intros Hp; now rewrite decide_False by exact Hp|].
    cbn [session_history]. split; [reflexivity|].
    erewrite (@analyze_one_decoded (with_agent L _)) by eauto. reflexivity.
Qed.

Lemma model_failure_stored_witness :
  exists s',
    @analyze_one Toy.offline (UploadedFile "scan.png" Toy.scan)
      (set_history (Some Toy.two_reports) Toy.fresh) = (s', inr tt) /\
    session_history s'
    = Some (Toy.two_reports ++
            [Entry "scan.png" "⚠️ Analysis error: network is unreachable"])%list.
Proof.
  destruct (@model_failure_stored Toy.offline
              (set_history (Some Toy.two_reports) Toy.fresh)
              (UploadedFile "scan.png" Toy.scan) Toy.two_reports
              (100, 151)%Z 100 151 754 (500, 754)%Z
              (list_byte_of_string "500x754")
              (Exn "ConnectionError" "network is unreachable"))
    as (s' & r & rep & -> & E & Hr & H & _); try (vm_compute; reflexivity).
  exists s'. rewrite Hr in E by (vm_compute; discriminate).
  split; [exact E|exact H].
Defined.

(** C2 (counterexample). A file that is no image: [PILImage.open] raises
    outside the [try] and the exception leaves [analyze_medical_image],
    no string is returned. A run with that upload ends on the same
    exception (at [st.image] already, which decodes the upload first) and
    no report is stored. *)
Lemma decode_failure_propagates :
  let bad := UploadedFile "bad.png" Toy.corrupt in
  let e := Exn "UnidentifiedImageError" "cannot identify image file" in
  (exists s', @analyze_medical_image Toy.online "temp_bad.png"
                (set_fs (insert "temp_bad.png" Toy.corrupt) Toy.fresh)
              = (s', inl e)) /\
  (@script Toy.online (Inputs ∅ [bad] true ∅) Toy.fresh).2 = Raised e /\
  session_history (@script Toy.online (Inputs ∅ [bad] true ∅) Toy.fresh).1
    = Some [].
Proof.
  cbv zeta. split; [eexists|split]; vm_compute; reflexivity.
Qed.

(** ** What a computation leaves untouched *)

Create HintDb keeps discriminated.

Lemma bind_run {A B} (m : M A) (k : A -> M B) s :
  (m ≫= k) s = match m s with
               | (s', inr a) => k a s'
               | (s', inl e) => (s', inl e)
               end.
Proof. reflexivity. Qed.

Lemma keeps_ret {A B} (proj : state -> B) (a : A) : keeps proj (ret a).
Proof. intros s. reflexivity. Qed.

Lemma keeps_lift {A B} (proj : state -> B) (r : exn + A) : keeps proj (lift r).
Proof. intros s. reflexivity. Qed.

Lemma keeps_bind {A B C} (proj : state -> C) (m : M A) (k : A -> M B) :
  keeps proj m -> (forall a, keeps proj (k a)) -> keeps proj (m ≫= k).
Proof.
  intros Hm Hk s. rewrite bind_run. specialize (Hm s).
  destruct (m s) as [s' [e|a]]; cbn [fst] in *; [exact Hm|].
  now rewrite Hk.
Qed.

Lemma keeps_try_except {A B} (proj : state -> B) (m : M A) (hd : exn -> M A) :
  keeps proj m -> (forall e, keeps proj (hd e)) -> keeps proj (try_except m hd).
Proof.
  intros Hm Hh s. unfold try_except. specialize (Hm s).
  destruct (m s) as [s' [e|a]]; cbn [fst] in *; [|exact Hm].
  now rewrite Hh.
Qed.

Lemma keeps_try_finally {A B} (proj : state -> B) (m : M A) (c : M unit) :
  keeps proj m -> keeps proj c -> keeps proj (try_finally m c).
Proof.
  intros Hm Hc s. unfold try_finally. specialize (Hm s).
  destruct (m s) as [s' r]. specialize (Hc s').
  destruct (c s') as [s'' [e|[]]]; cbn [fst] in *; congruence.
Qed.

Lemma keeps_for_each {A B} (proj : state -> B) (f : A -> M unit) (l : list A) :
  (forall a, keeps proj (f a)) -> keeps proj (for_each f l).
Proof.
  intros Hf. induction l as [|a l IH]; cbn [for_each].
  - apply keeps_ret.
  - apply (keeps_bind proj (f a) (fun _ => for_each f l)); auto.
Qed.

#[local] Hint Resolve keeps_ret keeps_lift keeps_bind keeps_try_except
  keeps_try_finally keeps_for_each : keeps.

Ltac keeps_cases := repeat case_match; cbn [fst]; congruence || reflexivity.
Ltac keeps_prim f := intros s; unfold f; keeps_cases.

Lemma emit_keeps_history e : keeps session_history (emit e).
Proof. keeps_prim emit. Qed.
Lemma emit_keeps_environ e : keeps environ (emit e).
Proof. keeps_prim emit. Qed.
Lemma write_keeps_history p d : keeps session_history (write_file p d).
Proof. keeps_prim write_file. Qed.
Lemma write_keeps_environ p d : keeps environ (write_file p d).
Proof. keeps_prim write_file. Qed.
Lemma remove_keeps_history p : keeps session_history (os_remove p).
Proof. keeps_prim os_remove. Qed.
Lemma remove_keeps_environ p : keeps environ (os_remove p).
Proof. keeps_prim os_remove. Qed.
Lemma get_history_keeps_history : keeps session_history get_history.
Proof. keeps_prim get_history. Qed.
Lemma get_history_keeps_environ : keeps environ get_history.
Proof. keeps_prim get_history. Qed.
Lemma append_keeps_environ e : keeps environ (history_append e).
Proof. keeps_prim history_append. Qed.
Lemma init_keeps_environ : keeps environ init_history.
Proof. keeps_prim init_history. Qed.
Lemma download_keeps_history l d f m :
  keeps session_history (st_download_button l d f m).
Proof. intros s. unfold st_download_button, emit. keeps_cases. Qed.
Lemma download_keeps_environ l d f m :
  keeps environ (st_download_button l d f m).
Proof. intros s. unfold st_download_button, emit. keeps_cases. Qed.

#[local] Hint Resolve emit_keeps_history emit_keeps_environ write_keeps_history
  write_keeps_environ remove_keeps_history remove_keeps_environ
  get_history_keeps_history get_history_keeps_environ append_keeps_environ
  init_keeps_environ download_keeps_history download_keeps_environ : keeps.

Section Keeps.
Context {L : Libs}.

Lemma open_keeps_history p : keeps session_history (PILImage_open p).
Proof. intros s. unfold PILImage_open. keeps_cases. Qed.
Lemma open_keeps_environ p : keeps environ (PILImage_open p).
Proof. intros s. unfold PILImage_open. keeps_cases. Qed.
Lemma agent_keeps_history q p : keeps session_history (medical_agent_run q p).
Proof. intros s. unfold medical_agent_run. keeps_cases. Qed.
Lemma agent_keeps_environ q p : keeps environ (medical_agent_run q p).
Proof. intros s. unfold medical_agent_run. keeps_cases. Qed.

Lemma save_keeps_history im p : keeps session_history (image_save im p).
Proof. intros s. unfold image_save. keeps_cases. Qed.
Lemma save_keeps_environ im p : keeps environ (image_save im p).
Proof. intros s. unfold image_save. keeps_cases. Qed.

Hint Resolve open_keeps_history open_keeps_environ agent_keeps_history
  agent_keeps_environ save_keeps_history save_keeps_environ : keeps.

Lemma analyze_keeps {B} (proj : state -> B) path :
  (forall p, keeps proj (PILImage_open p)) ->
  (forall im p, keeps proj (image_save im p)) ->
  (forall q p, keeps proj (medical_agent_run q p)) ->
  (forall p, keeps proj (os_remove p)) ->
  keeps proj (analyze_medical_image path).
Proof.
  intros H1 H2 H3 H4. unfold analyze_medical_image.
  apply keeps_bind; [auto|]. intros im. destruct (image_size im).
  repeat (apply keeps_bind; [auto with keeps|intros ?]).
  apply keeps_try_finally; auto. apply keeps_try_except; auto with keeps.
Qed.

Lemma analyze_keeps_history path : keeps session_history (analyze_medical_image path).
Proof. apply analyze_keeps; auto with keeps. Qed.

Lemma analyze_keeps_environ path : keeps environ (analyze_medical_image path).
Proof. apply analyze_keeps; auto with keeps. Qed.

Lemma display_entry_keeps {B} (proj : state -> B) e :
  (forall el, keeps proj (emit el)) ->
  (forall l d f m, keeps proj (st_download_button l d f m)) ->
  keeps proj (display_entry e).
Proof.
  intros H1 H2. unfold display_entry, txt_button, pdf_button.
  repeat (apply keeps_bind; [auto|intros ?]). auto.
Qed.

Lemma st_image_keeps {B} (proj : state -> B) up :
  (forall el, keeps proj (emit el)) -> keeps proj (st_image up).
Proof.
  intros H1. unfold st_image.
  repeat (apply keeps_bind; [auto using keeps_lift|intros ?]). auto.
Qed.

Lemma display_entry_keeps_history e : keeps session_history (display_entry e).
Proof. apply display_entry_keeps; auto with keeps. Qed.
Lemma display_entry_keeps_environ e : keeps environ (display_entry e).
Proof. apply display_entry_keeps; auto with keeps. Qed.
Lemma st_image_keeps_history up : keeps session_history (st_image up).
Proof. apply st_image_keeps; auto with keeps. Qed.
Lemma st_image_keeps_environ up : keeps environ (st_image up).
Proof. apply st_image_keeps; auto with keeps. Qed.
End Keeps.

#[local] Hint Resolve open_keeps_history open_keeps_environ agent_keeps_history
  agent_keeps_environ save_keeps_history save_keeps_environ
  analyze_keeps_history analyze_keeps_environ
  display_entry_keeps_history display_entry_keeps_environ
  st_image_keeps_history st_image_keeps_environ : keeps.

(** ** Rendering *)

Lemma length_append (s t : string) :
  String.length (s +:+ t) = (String.length s + String.length t)%nat.
Proof. induction s as [|a s IH]; simpl; [reflexivity|now rewrite IH]. Qed.

Lemma append_inj_r (s1 s2 t : string) : s1 +:+ t = s2 +:+ t -> s1 = s2.
Proof.
  revert s2. induction s1 as [|a s1 IH]; intros [|b s2] H; simpl in H.
  - reflexivity.
  - exfalso. apply (f_equal String.length) in H.
    cbn [String.length] in H. rewrite !length_append in H.
    cbn [String.length] in H. lia.
  - exfalso. apply (f_equal String.length) in H.
    cbn [String.length] in H. rewrite !length_append in H.
    cbn [String.length] in H. lia.
  - injection H as -> H. f_equal. now apply IH.
Qed.

Lemma txt_id_inj f f' : txt_id f = txt_id f' -> f = f'.
Proof. unfold txt_id. intros H. injection H as _ H. exact (append_inj_r _ _ _ H). Qed.

Lemma pdf_id_inj f f' : pdf_id f = pdf_id f' -> f = f'.
Proof. unfold pdf_id. intros H. injection H as _ H. exact (append_inj_r _ _ _ H). Qed.

Lemma txt_id_not_pdf f f' : txt_id f <> pdf_id f'.
Proof. unfold txt_id, pdf_id. intros H. injection H as _ _ H. discriminate. Qed.

Section Rendering.
Context {L : Libs}.

(** One entry of the history: the two headings, then each button unless
    its identity is taken. *)
Lemma display_entry_run (e : entry) (s : state) :
  display_entry e s =
    if decide (txt_id (filename e) ∈ ids s) then
      (set_page (fun p => p ++ take 2 (entry_elements e))%list s, inl duplicate_button)
    else if decide (pdf_id (filename e) ∈ ids s) then
      (set_page (fun p => p ++ take 3 (entry_elements e))%list s, inl duplicate_button)
    else (set_page (fun p => p ++ entry_elements e)%list s, inr tt).
Proof.
  unfold display_entry. rewrite bind_run. unfold emit at 1.
  rewrite bind_run. unfold emit at 1.
  rewrite bind_run. unfold txt_button, st_download_button at 1.
  cbn [page set_page]. rewrite !omap_app. cbn [omap list_omap element_id].
  rewrite !app_nil_r. fold (ids s). fold (txt_id (filename e)).
  destruct (decide (txt_id (filename e) ∈ ids s)) as [Ht|Ht].
  { unfold set_page. cbn [fs environ calls session_history page take entry_elements].
    now rewrite <- !app_assoc. }
  unfold emit at 1. unfold pdf_button, st_download_button.
  cbn [page set_page]. rewrite !omap_app. cbn [omap list_omap element_id].
  rewrite !app_nil_r. fold (ids s). fold (txt_id (filename e)).
  fold (pdf_id (filename e)).
  destruct (decide (pdf_id (filename e) ∈ ids s)) as [Hp|Hp].
  - rewrite decide_True by (apply elem_of_app; now left).
    unfold set_page. cbn [fs environ calls session_history page take entry_elements].
    now rewrite <- !app_assoc.
  - rewrite decide_False.
    + unfold emit, set_page.
      cbn [fs environ calls session_history page entry_elements].
      now rewrite <- !app_assoc.
    + rewrite elem_of_app, list_elem_of_singleton. intros [?|E]; [tauto|].
      symmetry in E. now apply txt_id_not_pdf in E.
Qed.

Lemma ids_entry (e : entry) (s : state) :
  ids (set_page (fun p => p ++ entry_elements e)%list s)
  = (ids s ++ [txt_id (filename e); pdf_id (filename e)])%list.
Proof. unfold ids. cbn [page set_page]. now rewrite omap_app. Qed.

(** The loop over the history renders a prefix of it, and all of it when
    it ends normally. *)
Lemma display_loop_txt (h : list entry) (s : state) :
  exists k,
    omap txt_artifact (page (for_each display_entry h s).1)
    = (omap txt_artifact (page s)
       ++ map (fun e => (filename e +:+ "_report.txt", report e)) (take k h))%list /\
    ((for_each display_entry h s).2 = inr tt -> k = length h).
Proof.
  revert s. induction h as [|e h IH]; intros s; cbn [for_each].
  - exists 0%nat. cbn. now rewrite app_nil_r.
  - change (bind ?m ?k) with (m ≫= k). rewrite bind_run, display_entry_run.
    destruct (decide (txt_id (filename e) ∈ ids s));
      [|destruct (decide (pdf_id (filename e) ∈ ids s))].
    + exists 0%nat. cbn [fst snd page set_page take map].
      rewrite omap_app. cbn. split; [reflexivity|discriminate].
    + exists 1%nat. cbn [fst snd page set_page take map].
      rewrite omap_app. cbn. split; [reflexivity|discriminate].
    + destruct (IH (set_page (fun p => p ++ entry_elements e)%list s)) as (k & E & Hk).
      exists (S k). rewrite E. cbn [page set_page take map length].
      rewrite omap_app, <- app_assoc. split; [reflexivity|].
      intros Hr. now rewrite Hk.
Qed.

Lemma display_loop_pdf (h : list entry) (s : state) :
  exists k,
    omap pdf_artifact (page (for_each display_entry h s).1)
    = (omap pdf_artifact (page s)
       ++ map (fun e => (filename e +:+ "_report.pdf", create_pdf (report e)))
              (take k h))%list /\
    ((for_each display_entry h s).2 = inr tt -> k = length h).
Proof.
  revert s. induction h as [|e h IH]; intros s; cbn [for_each].
  - exists 0%nat. cbn. now rewrite app_nil_r.
  - change (bind ?m ?k) with (m ≫= k). rewrite bind_run, display_entry_run.
    destruct (decide (txt_id (filename e) ∈ ids s));
      [|destruct (decide (pdf_id (filename e) ∈ ids s))].
    + exists 0%nat. cbn [fst snd page set_page take map].
      rewrite omap_app. cbn. split; [reflexivity|discriminate].
    + exists 0%nat. cbn [fst snd page set_page take map].
      rewrite omap_app. cbn. split; [reflexivity|discriminate].
    + destruct (IH (set_page (fun p => p ++ entry_elements e)%list s)) as (k & E & Hk).
      exists (S k). rewrite E. cbn [page set_page take map length].
      rewrite omap_app, <- app_assoc. split; [reflexivity|].
      intros Hr. now rewrite Hk.
Qed.

(** Entries of distinct names, none of which has a button on the page
    yet, are all rendered. *)
Lemma display_loop_fresh (h : list entry) (s : state) :
  NoDup (map filename h) ->
  (forall e, e ∈ h -> (txt_id (filename e) ∉ ids s) /\ (pdf_id (filename e) ∉ ids s)) ->
  for_each display_entry h s =
    (set_page (fun p => p ++ flat_map entry_elements h)%list s, inr tt).
Proof.
  revert s. induction h as [|e h IH]; intros s Hnd Hfresh; cbn [for_each flat_map].
  - unfold ret, set_page. rewrite app_nil_r. now destruct s.
  - change (bind ?m ?k) with (m ≫= k). rewrite bind_run, display_entry_run.
    destruct (Hfresh e) as [Ht Hp]; [apply list_elem_of_here|].
    rewrite !decide_False by assumption.
    cbn [map] in Hnd. apply NoDup_cons in Hnd as [Hne Hnd].
    rewrite IH.
    + unfold set_page. cbn [fs environ calls session_history page].
      now rewrite <- app_assoc.
    + exact Hnd.
    + intros e' He'. rewrite ids_entry.
      destruct (Hfresh e') as [Ht' Hp']; [now apply list_elem_of_further|].
      assert (filename e' <> filename e).
      { intros E. apply Hne. rewrite <- E. now apply list_elem_of_fmap_2. }
      rewrite !elem_of_app, !elem_of_cons, !elem_of_nil. split.
      * intros [?|[E|[E|[]]]]; [tauto| |].
        -- now apply txt_id_inj in E.
        -- now apply txt_id_not_pdf in E.
      * intros [?|[E|[E|[]]]]; [tauto| |].
        -- symmetry in E. now apply txt_id_not_pdf in E.
        -- now apply pdf_id_inj in E.
Qed.

(** The loop ends normally or on a repeated button. *)
Lemma display_loop_outcome (h : list entry) (s : state) :
  ((for_each display_entry h s).2 = inr tt) \/
  ((for_each display_entry h s).2 = inl duplicate_button).
Proof.
  revert s. induction h as [|e h IH]; intros s; cbn [for_each].
  - now left.
  - change (bind ?m ?k) with (m ≫= k). rewrite bind_run, display_entry_run.
    repeat case_decide; cbn [snd]; auto.
Qed.

(** An entry whose button is on the page already stops the loop. *)
Lemma display_loop_taken (h : list entry) (s : state) (f : string) :
  txt_id f ∈ ids s -> f ∈ map filename h ->
  (for_each display_entry h s).2 = inl duplicate_button.
Proof.
  revert s. induction h as [|e h IH]; intros s Hin Hf; cbn [for_each].
  - cbn in Hf. now apply elem_of_nil in Hf.
  - change (bind ?m ?k) with (m ≫= k). rewrite bind_run, display_entry_run.
    destruct (decide (txt_id (filename e) ∈ ids s)) as [Ht|Ht]; [reflexivity|].
    destruct (decide (pdf_id (filename e) ∈ ids s)); [reflexivity|].
    cbn [map] in Hf. apply elem_of_cons in Hf as [->|Hf]; [contradiction|].
    apply IH; [|exact Hf]. rewrite ids_entry. apply elem_of_app. now left.
Qed.

(** A history in which a filename repeats is never rendered to its end. *)
Lemma display_loop_repeated (h : list entry) (s : state) :
  ~ NoDup (map filename h) ->
  (for_each display_entry h s).2 = inl duplicate_button.
Proof.
  revert s. induction h as [|e h IH]; intros s Hnd; cbn [for_each].
  - exfalso. apply Hnd. constructor.
  - change (bind ?m ?k) with (m ≫= k). rewrite bind_run, display_entry_run.
    destruct (decide (txt_id (filename e) ∈ ids s)) as [Ht|Ht]; [reflexivity|].
    destruct (decide (pdf_id (filename e) ∈ ids s)); [reflexivity|].
    destruct (decide (filename e ∈ map filename h)) as [Hin|Hin].
    + apply (display_loop_taken h _ (filename e)); [|exact Hin].
      rewrite ids_entry. apply elem_of_app. right. apply list_elem_of_here.
    + apply IH. intros Hnd'. apply Hnd. cbn [map]. now apply NoDup_cons.
Qed.

Lemma display_reports_run (s : state) (h : list entry) :
  session_history s = Some h ->
  display_reports s =
    match h with
    | [] => (s, inr tt)
    | _ => for_each display_entry h
             (set_page (fun p => p ++ [Subheader "📊 Analysis Results"])%list s)
    end.
Proof.
  intros H. unfold display_reports. rewrite bind_run.
  unfold get_history. rewrite H. destruct h; reflexivity.
Qed.

(** On a page that has no download button yet, a history of distinct
    names is rendered whole. *)
Lemma display_reports_page (s : state) (h : list entry) :
  session_history s = Some h -> ids s = [] -> NoDup (map filename h) ->
  display_reports s =
    (State (fs s) (environ s) (calls s) (session_history s)
           (page s ++ match h with
                      | [] => []
                      | _ => Subheader "📊 Analysis Results" :: flat_map entry_elements h
                      end)%list, inr tt).
Proof.
  intros H Hids Hnd. rewrite (display_reports_run s h H).
  destruct h as [|e h]; [rewrite app_nil_r; now destruct s|].
  rewrite display_loop_fresh.
  - unfold set_page. cbn [fs environ calls session_history page].
    now rewrite <- app_assoc.
  - exact Hnd.
  - intros e' _. unfold ids. cbn [page set_page]. rewrite omap_app.
    fold (ids s). rewrite Hids. cbn. split; apply not_elem_of_nil.
Qed.

Lemma display_reports_repeated (s : state) (h : list entry) :
  session_history s = Some h -> ~ NoDup (map filename h) ->
  (display_reports s).2 = inl duplicate_button.
Proof.
  intros H Hnd. rewrite (display_reports_run s h H).
  destruct h as [|e h]; [exfalso; apply Hnd; constructor|].
  now apply display_loop_repeated.
Qed.

Lemma display_reports_outcome (s : state) (h : list entry) :
  session_history s = Some h ->
  ((display_reports s).2 = inr tt) \/ ((display_reports s).2 = inl duplicate_button).
Proof.
  intros H. rewrite (display_reports_run s h H).
  destruct h as [|e h]; [now left|]. apply display_loop_outcome.
Qed.

(** The plain-text downloads a rendering adds. *)
Lemma display_reports_txt (s : state) (h : list entry) :
  session_history s = Some h ->
  exists k,
    omap txt_artifact (page (display_reports s).1)
    = (omap txt_artifact (page s)
       ++ map (fun e => (filename e +:+ "_report.txt", report e)) (take k h))%list /\
    ((display_reports s).2 = inr tt -> k = length h).
Proof.
  intros H. rewrite (display_reports_run s h H). destruct h as [|e h].
  - exists 0%nat. cbn. now rewrite app_nil_r.
  - match goal with |- context [for_each display_entry ?l ?st] =>
      destruct (display_loop_txt l st) as (k & E & Hk) end.
    exists k. rewrite E. cbn [page set_page]. rewrite omap_app. cbn.
    rewrite app_nil_r. auto.
Qed.

Lemma display_reports_pdf (s : state) (h : list entry) :
  session_history s = Some h ->
  exists k,
    omap pdf_artifact (page (display_reports s).1)
    = (omap pdf_artifact (page s)
       ++ map (fun e => (filename e +:+ "_report.pdf", create_pdf (report e)))
              (take k h))%list /\
    ((display_reports s).2 = inr tt -> k = length h).
Proof.
  intros H. rewrite (display_reports_run s h H). destruct h as [|e h].
  - exists 0%nat. cbn. now rewrite app_nil_r.
  - match goal with |- context [for_each display_entry ?l ?st] =>
      destruct (display_loop_pdf l st) as (k & E & Hk) end.
    exists k. rewrite E. cbn [page set_page]. rewrite omap_app. cbn.
    rewrite app_nil_r. auto.
Qed.
End Rendering.

(** C9. Every plain-text download that rendering puts on the page is
    made from an entry of the history, in the order of the history: its
    content is the stored report string itself and its name
    [<filename>_report.txt]. When rendering runs to its end there is one
    for every stored report; it runs to its end when the filenames of the
    history are distinct and the page has no download button yet. *)
Theorem txt_export_is_stored_report {L : Libs} (s : state) (h : list entry) :
  session_history s = Some h ->
  exists s' r k,
    display_reports s = (s', r) /\
    omap txt_artifact (page s')
    = (omap txt_artifact (page s)
       ++ map (fun e => (filename e +:+ "_report.txt", report e)) (take k h))%list /\
    (r = inr tt -> k = length h) /\
    (ids s = [] -> NoDup (map filename h) -> r = inr tt).
Proof.
  intros H. destruct (display_reports_txt s h H) as (k & E & Hk).
  exists (display_reports s).1, (display_reports s).2, k.
  split; [now destruct (display_reports s)|]. split; [exact E|].
  split; [exact Hk|]. intros Hids Hnd.
  now rewrite (display_reports_page s h H Hids Hnd).
Qed.

Lemma txt_export_is_stored_report_witness :
  exists s',
    @display_reports Toy.online (set_history (Some Toy.two_reports) Toy.fresh)
    = (s', inr tt) /\
    omap txt_artifact (page s')
    = [("chest1.png_report.txt", "report one");
       ("chest2.png_report.txt", "report two")].
Proof.
  destruct (@txt_export_is_stored_report Toy.online
              (set_history (Some Toy.two_reports) Toy.fresh) Toy.two_reports
              eq_refl) as (s' & r & k & E & H & Hk & Hr).
  assert (Er : r = inr tt).
  { apply Hr; [reflexivity|].
    apply (bool_decide_unpack (NoDup (map filename Toy.two_reports))).
    vm_compute. exact I. }
  subst r. rewrite (Hk eq_refl) in H. exists s'. split; [exact E|exact H].
Defined.

(** ** The comparison view *)

Lemma selectbox_elem (options : list string) key (ws : gmap string string) f :
  selectbox options key ws = Some f -> f ∈ options.
Proof.
  unfold selectbox. intros H.
  assert (Hhd : head options = Some f -> f ∈ options).
  { destruct options; [discriminate|]. intros [= ->]. apply list_elem_of_here. }
  destruct (ws !! key) as [v|]; [|auto].
  destruct (decide (v ∈ options)); [congruence|auto].
Qed.

Lemma selectbox_default (options : list string) key (ws : gmap string string) :
  ws !! key = None -> selectbox options key ws = head options.
Proof. intros H. unfold selectbox. now rewrite H. Qed.

Lemma selectbox_chosen (options : list string) key (ws : gmap string string) v :
  ws !! key = Some v -> v ∈ options -> selectbox options key ws = Some v.
Proof. intros H Hv. unfold selectbox. rewrite H. now rewrite decide_True. Qed.

Lemma next_entry_earliest (h : list entry) (f : string) :
  f ∈ map filename h ->
  exists i r, next_entry h f = inr (i, r) /\ h !! i = Some r /\ filename r = f /\
              forall j e, h !! j = Some e -> filename e = f -> i <= j.
Proof.
  intros Hin. apply list_elem_of_fmap in Hin as (e0 & -> & Hin).
  destruct (list_find_elem_of (fun e => filename e = filename e0) h e0 Hin eq_refl)
    as [[i r] Hfind].
  exists i, r. unfold next_entry. rewrite Hfind.
  apply list_find_Some in Hfind as (Hi & Hr & Hmin).
  repeat split; auto.
  intros j e Hj He. destruct (decide (i <= j)) as [|Hlt]; [assumption|].
  exfalso. apply (Hmin j e Hj); [lia|assumption].
Qed.

Lemma next_entry_inv (h : list entry) (f : string) i r :
  next_entry h f = inr (i, r) ->
  h !! i = Some r /\ filename r = f /\
  forall j e, h !! j = Some e -> filename e = f -> i <= j.
Proof.
  unfold next_entry. destruct (list_find _ h) as [[i' r']|] eqn:Hfind; [|discriminate].
  intros [= -> ->]. apply list_find_Some in Hfind as (Hi & Hr & Hmin).
  repeat split; auto.
  intros j e Hj He. destruct (decide (i <= j)) as [|Hlt]; [assumption|].
  exfalso. apply (Hmin j e Hj); [lia|assumption].
Qed.

(** The page [compare_reports] leaves, by what lines 205-207 find. *)
Lemma compare_reports_page (ws : gmap string string) (s : state) (h : list entry) :
  session_history s = Some h -> 2 <= length h ->
  let names := map filename h in
  let file1 := selectbox names "report1" ws in
  let file2 := selectbox names "report2" ws in
  let menus := [ Subheader "🔀 Compare Reports";
                 Column 0 [Selectbox "Select First Report" names "report1" file1];
                 Column 1 [Selectbox "Select Second Report" names "report2" file2] ] in
  compare_reports ws s =
    match compare_lookup h file1 file2 with
    | inl e =>
        (State (fs s) (environ s) (calls s) (session_history s)
               (page s ++ menus)%list, inl e)
    | inr None =>
        (State (fs s) (environ s) (calls s) (session_history s)
               (page s ++ menus)%list, inr tt)
    | inr (Some (r1, r2)) =>
        (State (fs s) (environ s) (calls s) (session_history s)
               (page s ++ menus ++ [report_panel 0 r1; report_panel 1 r2])%list,
         inr tt)
    end.
Proof.
  intros H Hlen. cbv zeta. unfold compare_reports. rewrite bind_run.
  destruct s as [f ev c sh p]. cbn [session_history] in H. subst sh.
  unfold get_history. cbn [fs environ calls session_history page].
  rewrite decide_True by exact Hlen.
  unfold mbind, M_bind, bind, emit, lift, ret, set_page.
  cbn [fs environ calls session_history page].
  destruct (compare_lookup h _ _) as [e|[[r1 r2]|]];
    cbn [fs environ calls session_history page];
    rewrite <- ?app_assoc; reflexivity.
Qed.

Lemma compare_reports_short (ws : gmap string string) (s : state) (h : list entry) :
  session_history s = Some h -> ~ 2 <= length h ->
  compare_reports ws s = (s, inr tt).
Proof.
  intros H Hlen. unfold compare_reports. rewrite bind_run.
  unfold get_history. rewrite H. now rewrite decide_False by exact Hlen.
Qed.

Lemma panels_app (p q : list element) : panels (p ++ q) = (panels p ++ panels q)%list.
Proof. apply List.filter_app. Qed.

Lemma compare_lookup_menu (h : list entry) (f1 f2 : string) :
  f1 ∈ map filename h -> f2 ∈ map filename h ->
  exists i1 r1 i2 r2,
    next_entry h f1 = inr (i1, r1) /\ next_entry h f2 = inr (i2, r2) /\
    compare_lookup h (Some f1) (Some f2) =
      inr (if truthy (Some f1) && truthy (Some f2) && bool_decide (f1 ≠ f2)
           then Some (r1, r2) else None).
Proof.
  intros H1 H2.
  destruct (next_entry_earliest h f1 H1) as (i1 & r1 & E1 & _).
  destruct (next_entry_earliest h f2 H2) as (i2 & r2 & E2 & _).
  exists i1, r1, i2, r2. repeat split; try assumption.
  unfold compare_lookup. rewrite E1, E2.
  replace (bool_decide (Some f1 ≠ Some f2)) with (bool_decide (f1 ≠ f2))
    by (apply bool_decide_ext; split; congruence).
  now destruct (truthy (Some f1) && truthy (Some f2) && bool_decide (f1 ≠ f2)).
Qed.

Lemma compare_lookup_inv (h : list entry) (o1 o2 : option string) r1 r2 :
  compare_lookup h o1 o2 = inr (Some (r1, r2)) ->
  exists f1 f2 i1 i2,
    o1 = Some f1 /\ o2 = Some f2 /\ f1 <> f2 /\ f1 <> "" /\ f2 <> "" /\
    next_entry h f1 = inr (i1, r1) /\ next_entry h f2 = inr (i2, r2).
Proof.
  unfold compare_lookup.
  destruct o1 as [f1|]; [|discriminate]. destruct o2 as [f2|];
    [|rewrite andb_false_r; discriminate].
  destruct (truthy (Some f1)) eqn:T1; [|discriminate].
  destruct (truthy (Some f2)) eqn:T2; [|discriminate].
  cbn [andb]. case_bool_decide as Hne; [|discriminate].
  destruct (next_entry h f1) as [|[i1 x1]] eqn:E1; [discriminate|].
  destruct (next_entry h f2) as [|[i2 x2]] eqn:E2; [discriminate|].
  intros [= -> ->]. exists f1, f2, i1, i2.
  split; [reflexivity|]. split; [reflexivity|]. split; [congruence|].
  split; [intros ->; discriminate|]. split; [intros ->; discriminate|].
  split; assumption.
Qed.

Lemma compare_lookup_same (h : list entry) (o : option string) :
  compare_lookup h o o = inr None.
Proof.
  unfold compare_lookup. rewrite bool_decide_false by congruence.
  now rewrite andb_false_r.
Qed.

Lemma truthy_nonempty (f : string) : f <> "" -> truthy (Some f) = true.
Proof. destruct f; [congruence|reflexivity]. Qed.

Lemma menu_selection (h : list entry) key (ws : gmap string string) :
  2 <= length h ->
  exists f, selectbox (map filename h) key ws = Some f /\ f ∈ map filename h.
Proof.
  intros Hlen.
  destruct (selectbox (map filename h) key ws) as [f|] eqn:E.
  - exists f. split; [reflexivity|]. eapply selectbox_elem; eassumption.
  - exfalso. unfold selectbox in E. destruct h as [|e h]; [cbn in Hlen; lia|].
    destruct (ws !! key) as [v|]; [|discriminate].
    destruct (decide _); discriminate.
Qed.

(** C6. With at least two entries in the history, none of them under an
    empty filename (an uploaded file has a name), each menu holds one of
    the history's filenames and the view raises nothing. When the two
    selected filenames differ, the view shows, after the menus, two
    columns side by side: the first holds the heading and the report of
    an entry of the first selected name, the second those of an entry of
    the second selected name. When the two selections are the same, the
    view shows the menus and nothing more. *)
Theorem compare_view_panels {L : Libs} (ws : gmap string string) (s : state)
    (h : list entry) :
  session_history s = Some h -> 2 <= length h ->
  Forall (fun e => filename e <> "") h ->
  exists f1 f2 s',
    selectbox (map filename h) "report1" ws = Some f1 /\
    selectbox (map filename h) "report2" ws = Some f2 /\
    compare_reports ws s = (s', inr tt) /\
    let menus :=
      [ Subheader "🔀 Compare Reports";
        Column 0 [Selectbox "Select First Report" (map filename h) "report1" (Some f1)];
        Column 1 [Selectbox "Select Second Report" (map filename h) "report2" (Some f2)] ] in
    (f1 <> f2 ->
     exists r1 r2, r1 ∈ h /\ r2 ∈ h /\ filename r1 = f1 /\ filename r2 = f2 /\
       page s'
       = (page s ++ menus
          ++ [ Column 0 [Markdown ("### 🖼️ " +:+ f1); Markdown (report r1)];
               Column 1 [Markdown ("### 🖼️ " +:+ f2); Markdown (report r2)] ])%list) /\
    (f1 = f2 -> page s' = (page s ++ menus)%list).
Proof.
  intros H Hlen Hne.
  destruct (menu_selection h "report1" ws Hlen) as (f1 & S1 & In1).
  destruct (menu_selection h "report2" ws Hlen) as (f2 & S2 & In2).
  assert (N : forall f, f ∈ map filename h -> f <> "").
  { intros f Hf. apply list_elem_of_fmap in Hf as (e & -> & He).
    exact (proj1 (list.Forall_forall _ h) Hne e He). }
  destruct (compare_lookup_menu h f1 f2 In1 In2)
    as (i1 & r1 & i2 & r2 & E1 & E2 & Hlook).
  pose proof (compare_reports_page ws s h H Hlen) as Hpage. cbv zeta in Hpage.
  rewrite S1, S2, Hlook in Hpage.
  rewrite !truthy_nonempty in Hpage by auto. cbn [andb] in Hpage.
  apply next_entry_inv in E1 as (Hi1 & Hn1 & _).
  apply next_entry_inv in E2 as (Hi2 & Hn2 & _).
  exists f1, f2. destruct (decide (f1 = f2)) as [Heq|Hneq].
  - rewrite bool_decide_false in Hpage by congruence.
    eexists. split; [exact S1|]. split; [exact S2|]. split; [exact Hpage|].
    cbv zeta. split; [congruence|]. intros _. reflexivity.
  - rewrite bool_decide_true in Hpage by congruence.
    eexists. split; [exact S1|]. split; [exact S2|]. split; [exact Hpage|].
    cbv zeta. split; [|congruence]. intros _. exists r1, r2.
    split; [eauto using list_elem_of_lookup_2|].
    split; [eauto using list_elem_of_lookup_2|].
    split; [exact Hn1|]. split; [exact Hn2|].
    cbn [page]. unfold report_panel. now rewrite Hn1, Hn2.
Qed.

Lemma compare_view_panels_witness :
  let s := set_history (Some Toy.two_reports) Toy.fresh in
  let ws : gmap string string := {["report2" := "chest2.png"]} in
  exists s',
    @compare_reports ws s = (s', inr tt) /\
    page s'
    = [ Subheader "🔀 Compare Reports";
        Column 0 [Selectbox "Select First Report" ["chest1.png"; "chest2.png"]
                            "report1" (Some "chest1.png")];
        Column 1 [Selectbox "Select Second Report" ["chest1.png"; "chest2.png"]
                            "report2" (Some "chest2.png")];
        Column 0 [Markdown "### 🖼️ chest1.png"; Markdown "report one"];
        Column 1 [Markdown "### 🖼️ chest2.png"; Markdown "report two"] ].
Proof.
  cbv zeta.
  destruct (@compare_view_panels Toy.online {["report2" := "chest2.png"]}
              (set_history (Some Toy.two_reports) Toy.fresh) Toy.two_reports
              eq_refl ltac:(cbn; lia)
              ltac:(repeat constructor; discriminate))
    as (f1 & f2 & s' & S1 & S2 & E & Hd & _).
  vm_compute in S1, S2. injection S1 as <-. injection S2 as <-.
  destruct Hd as (r1 & r2 & In1 & In2 & N1 & N2 & Hp); try discriminate.
  exists s'. split; [exact E|]. rewrite Hp.
  assert (R1 : r1 = Entry "chest1.png" "report one").
  { apply list_elem_of_In in In1. cbn in In1.
    destruct In1 as [<-|[<-|[]]]; [reflexivity|discriminate]. }
  assert (R2 : r2 = Entry "chest2.png" "report two").
  { apply list_elem_of_In in In2. cbn in In2.
    destruct In2 as [<-|[<-|[]]]; [discriminate|reflexivity]. }
  rewrite R1, R2. reflexivity.
Defined.

(** C7 (amended). When the comparison view opens (at least two entries,
    nothing chosen yet in either menu), both menus stand on the first
    entry of the history, so the two selections are the same and no
    panel is shown until the user changes one of them. *)
Theorem menus_default_to_first {L : Libs} (ws : gmap string string) (s : state)
    (e : entry) (rest : list entry) :
  session_history s = Some (e :: rest) -> 2 <= length (e :: rest) ->
  ws !! "report1" = None -> ws !! "report2" = None ->
  selectbox (map filename (e :: rest)) "report1" ws = Some (filename e) /\
  selectbox (map filename (e :: rest)) "report2" ws = Some (filename e) /\
  exists s', compare_reports ws s = (s', inr tt) /\
             panels (page s') = panels (page s).
Proof.
  intros H Hlen W1 W2.
  assert (S1 := selectbox_default (map filename (e :: rest)) "report1" ws W1).
  assert (S2 := selectbox_default (map filename (e :: rest)) "report2" ws W2).
  cbn [map head] in S1, S2. split; [exact S1|]. split; [exact S2|].
  pose proof (compare_reports_page ws s (e :: rest) H Hlen) as Hpage.
  cbv zeta in Hpage. cbn [map] in Hpage.
  rewrite S1, S2, compare_lookup_same in Hpage.
  eexists. split; [exact Hpage|].
  cbn [page]. rewrite panels_app. cbn. now rewrite app_nil_r.
Qed.

Lemma menus_default_to_first_witness :
  let s := set_history (Some Toy.two_reports) Toy.fresh in
  selectbox (map filename Toy.two_reports) "report1" ∅ = Some "chest1.png" /\
  selectbox (map filename Toy.two_reports) "report2" ∅ = Some "chest1.png" /\
  exists s', @compare_reports ∅ s = (s', inr tt) /\ panels (page s') = [].
Proof.
  cbv zeta.
  exact (@menus_default_to_first Toy.online ∅
           (set_history (Some Toy.two_reports) Toy.fresh)
           (Entry "chest1.png" "report one") [Entry "chest2.png" "report two"]
           eq_refl ltac:(cbn; lia) eq_refl eq_refl).
Defined.

(** C7 (counterexample). Two entries with different names: the first two
    distinct entries are [chest1.png] and [chest2.png], but the second
    menu opens on [chest1.png] like the first. *)
Lemma second_menu_not_on_second_entry :
  let names := map filename Toy.two_reports in
  2 <= length Toy.two_reports /\
  first_two_distinct names = Some ("chest1.png", "chest2.png") /\
  selectbox names "report1" ∅ = Some "chest1.png" /\
  selectbox names "report2" ∅ = Some "chest1.png" /\
  selectbox names "report2" ∅ <> Some "chest2.png".
Proof.
  cbv zeta. split; [cbn; lia|].
  repeat split; try (vm_compute; reflexivity). vm_compute. discriminate.
Qed.

(** ** The history *)

Ltac keeps_auto :=
  repeat first
    [ progress intros
    | solve [auto with keeps]
    | apply keeps_for_each
    | apply keeps_bind
    | apply keeps_try_finally
    | apply keeps_try_except
    | case_match ].

Section History.
Context {L : Libs}.

Lemma display_keeps_history : keeps session_history display_reports.
Proof. unfold display_reports. keeps_auto. Qed.

Lemma display_keeps_environ : keeps environ display_reports.
Proof. unfold display_reports. keeps_auto. Qed.

Lemma compare_keeps_history ws : keeps session_history (compare_reports ws).
Proof. unfold compare_reports. keeps_auto. Qed.

Lemma compare_keeps_environ ws : keeps environ (compare_reports ws).
Proof. unfold compare_reports. keeps_auto. Qed.

Lemma analyze_one_keeps_environ up : keeps environ (analyze_one up).
Proof.
  unfold analyze_one. keeps_auto.
Qed.

(** One pass of the loop body either raises before the [append] or
    appends one entry under the upload's name. *)
Lemma analyze_one_history (up : uploaded_file) (s : state) (h0 : list entry) :
  session_history s = Some h0 ->
  (session_history (analyze_one up s).1 = Some h0 /\
   exists e, (analyze_one up s).2 = inl e) \/
  (exists rep,
     session_history (analyze_one up s).1 = Some (h0 ++ [Entry (name up) rep])%list).
Proof.
  intros H. destruct (analyze_one up s) as [s' r] eqn:E. cbn [fst snd].
  unfold analyze_one in E.
  rewrite bind_run in E. unfold emit at 1 in E.
  rewrite bind_run in E. unfold write_file at 1 in E.
  rewrite bind_run in E.
  match type of E with context [analyze_medical_image ?p ?st] =>
    pose proof (analyze_keeps_history p st) as K;
    destruct (analyze_medical_image p st) as [s3 [e|rep]] end;
    cbn [fst session_history set_fs set_page] in K.
  - left. injection E as <- <-. split; [congruence|eauto].
  - right. exists rep. rewrite bind_run in E. unfold history_append at 1 in E.
    rewrite K, H in E.
    match type of E with os_remove ?p ?st = _ =>
      pose proof (remove_keeps_history p st) as K' end.
    rewrite E in K'. exact K'.
Qed.

Lemma analyze_all_history (files : list uploaded_file) (s : state) (h0 : list entry) :
  session_history s = Some h0 ->
  exists reports,
    session_history (analyze_all files s).1
    = Some (h0 ++ zip_with Entry (map name files) reports)%list /\
    length reports <= length files /\
    ((analyze_all files s).2 = inr tt -> length reports = length files).
Proof.
  revert s h0. induction files as [|up files IH]; intros s h0 H.
  - exists []. cbn. rewrite app_nil_r. auto.
  - unfold analyze_all. cbn [for_each].
    change (bind ?m ?k) with (m ≫= k). rewrite bind_run.
    destruct (analyze_one_history up s h0 H) as [[Hs (e & He)]|[rep Hs]].
    + exists []. destruct (analyze_one up s) as [s1 r1]. cbn [fst snd] in *.
      subst r1. cbn [fst snd zip_with]. rewrite app_nil_r.
      split; [assumption|]. split; [cbn; lia|discriminate].
    + destruct (analyze_one up s) as [s1 [e|[]]]; cbn [fst snd] in *.
      * exists [rep]. cbn [map zip_with]. destruct (map name files);
          (split; [assumption|split; [cbn; lia|discriminate]]).
      * destruct (IH s1 _ Hs) as (reports & Hh & Hlen & Hok).
        exists (rep :: reports). cbn [map zip_with length].
        fold (analyze_all files). rewrite Hh, <- app_assoc. cbn [app].
        split; [reflexivity|]. split; [lia|]. intros E. now rewrite Hok.
Qed.
End History.

(** ** A run of the script *)

Section Runs.
Context {L : Libs}.

Lemma setup_page_run (s : state) :
  setup_page s =
    (State (fs s) (environ s) (calls s) (Some (history_of s))
           (page s ++ [ PageConfig "Medical Image Analysis" "wide";
                        Title "🩺 AI-Powered Medical Image Analysis Tool 🔬";
                        Markdown intro ])%list,
     inr tt).
Proof.
  unfold setup_page, mbind, M_bind, bind, emit, init_history, set_page,
    set_history, history_of.
  cbn [fs environ calls session_history page].
  destruct (session_history s); cbn [default];
    rewrite <- !app_assoc; reflexivity.
Qed.

(** The sidebar, step by step. *)
Lemma upload_images_run (inp : inputs) (s : state) :
  upload_images inp s =
    let s1 := set_page (fun p => p ++ [SidebarHeader "Upload Your Medical Images";
                                       FileUploader "Choose medical images" upload_types])%list s in
    match uploaded_files inp with
    | [] => (s1, inr tt)
    | files =>
        match for_each st_image files s1 with
        | (s2, inl e) => (s2, inl e)
        | (s2, inr _) =>
            let s3 := set_page (fun p => p ++ [SidebarButton "Analyze All"])%list s2 in
            if analyze_all_clicked inp then analyze_all files s3 else (s3, inr tt)
        end
    end.
Proof.
  unfold upload_images. rewrite bind_run. unfold emit at 1.
  rewrite bind_run. unfold emit at 1.
  assert (E : set_page (fun p => (p ++ [FileUploader "Choose medical images" upload_types])%list)
                (set_page (fun p => (p ++ [SidebarHeader "Upload Your Medical Images"])%list) s)
              = set_page (fun p => p ++ [SidebarHeader "Upload Your Medical Images";
                                         FileUploader "Choose medical images" upload_types])%list s).
  { unfold set_page. cbn [fs environ calls session_history page].
    now rewrite <- app_assoc. }
  rewrite E. cbv zeta. destruct (uploaded_files inp) as [|f files]; [reflexivity|].
  rewrite bind_run. destruct (for_each st_image (f :: files) _) as [s2 [e|[]]];
    [reflexivity|].
  rewrite bind_run. unfold emit at 1. now destruct (analyze_all_clicked inp).
Qed.

Lemma st_images_keeps_history files : keeps session_history (for_each st_image files).
Proof. apply keeps_for_each. auto with keeps. Qed.

Lemma upload_images_history (inp : inputs) (s : state) (h0 : list entry) :
  session_history s = Some h0 ->
  exists reports,
    session_history (upload_images inp s).1
    = Some (h0 ++ zip_with Entry (map name (uploaded_files inp)) reports)%list /\
    length reports <= length (uploaded_files inp) /\
    ((upload_images inp s).2 = inr tt -> analyze_all_clicked inp = true ->
     length reports = length (uploaded_files inp)) /\
    (analyze_all_clicked inp = false -> reports = []).
Proof.
  intros H. rewrite upload_images_run. cbv zeta.
  destruct (uploaded_files inp) as [|f files] eqn:Hf.
  - exists []. cbn. rewrite app_nil_r. auto.
  - match goal with |- context [for_each st_image ?l ?st] =>
      pose proof (st_images_keeps_history l st) as K;
      destruct (for_each st_image l st) as [s2 [e|[]]] end;
      cbn [fst session_history set_page] in K; rewrite H in K.
    + exists []. cbn [fst snd zip_with map]. rewrite app_nil_r.
      split; [exact K|]. split; [cbn; lia|]. split; [discriminate|reflexivity].
    + destruct (analyze_all_clicked inp).
      * match goal with |- context [analyze_all _ ?st] =>
          destruct (analyze_all_history (f :: files) st h0 K)
            as (reports & Hh & Hlen & Hok) end.
        exists reports. split; [exact Hh|]. split; [exact Hlen|].
        split; [intros E' _; exact (Hok E')|discriminate].
      * exists []. cbn [fst snd zip_with map]. rewrite app_nil_r.
        split; [exact K|]. split; [cbn; lia|]. split; [discriminate|reflexivity].
Qed.

Lemma main_history (inp : inputs) (s : state) :
  exists reports,
    history_of (main inp s).1
    = (history_of s ++ zip_with Entry (map name (uploaded_files inp)) reports)%list /\
    length reports <= length (uploaded_files inp) /\
    ((main inp s).2 = inr tt -> analyze_all_clicked inp = true ->
     length reports = length (uploaded_files inp)) /\
    (analyze_all_clicked inp = false -> reports = []).
Proof.
  unfold main. rewrite bind_run, setup_page_run, bind_run.
  match goal with |- context [upload_images inp ?st] =>
    destruct (upload_images_history inp st (history_of s) eq_refl)
      as (reports & Hh & Hlen & Hok & Hno);
    destruct (upload_images inp st) as [s2 [e|[]]] end;
    cbn [fst snd] in *; exists reports.
  - unfold history_of at 1. rewrite Hh. cbn [default].
    split; [reflexivity|]. split; [exact Hlen|]. split; [discriminate|exact Hno].
  - assert (K : keeps session_history
                  (display_reports ≫= fun _ => compare_reports (widgets inp))).
    { apply keeps_bind; [apply display_keeps_history|].
      intros _. apply compare_keeps_history. }
    unfold history_of at 1. rewrite K, Hh. cbn [default].
    split; [reflexivity|]. split; [exact Hlen|]. split; [auto|exact Hno].
Qed.

Lemma script_history (inp : inputs) (s : state) :
  exists reports,
    history_of (script inp s).1
    = (history_of s ++ zip_with Entry (map name (uploaded_files inp)) reports)%list /\
    length reports <= length (uploaded_files inp) /\
    ((script inp s).2 = Completed -> analyze_all_clicked inp = true ->
     length reports = length (uploaded_files inp)) /\
    (analyze_all_clicked inp = false -> reports = []).
Proof.
  unfold script.
  destruct (os_getenv _ _) as [[|c k]|].
  2: { match goal with |- context [main inp ?st] =>
         destruct (main_history inp st) as (reports & Hh & Hlen & Hok & Hno);
         destruct (main inp st) as [s3 [e|[]]] end;
       cbn [fst snd] in *; exists reports;
       (split; [exact Hh|]); (split; [exact Hlen|]);
       (split; [|exact Hno]); [discriminate|auto]. }
  all: exists []; cbn [zip_with fst snd]; rewrite zip_with_nil_r, app_nil_r;
    (split; [reflexivity|]); (split; [cbn [length]; lia|]);
    (split; [discriminate|reflexivity]).
Qed.

Lemma session_history_grows (runs : list inputs) (s : state) :
  history_of s `prefix_of` history_of (run_session runs s).
Proof.
  revert s. induction runs as [|inp runs IH]; intros s; cbn [run_session].
  - reflexivity.
  - etransitivity; [|apply IH].
    destruct (script_history inp s) as (reports & -> & _).
    now apply prefix_app_r.
Qed.

Lemma main_keeps_environ (inp : inputs) : keeps environ (main inp).
Proof.
  unfold main, setup_page, upload_images, analyze_all.
  pose proof analyze_one_keeps_environ. pose proof display_keeps_environ.
  pose proof compare_keeps_environ. keeps_auto.
Qed.
End Runs.

(** C4. One run only appends to the history: the entries added bear the
    names of the uploads, in the order of submission, one per analysis
    made, and a run that goes through Analyze All over N uploads and
    completes adds exactly N, whatever their names (two uploads of one
    name give two entries). Over any sequence of runs of a session the
    earlier history remains a prefix of the later one: nothing is removed,
    merged or reordered. *)
Theorem history_append_only {L : Libs} :
  (forall (inp : inputs) (s : state),
     exists reports,
       history_of (script inp s).1
       = (history_of s
          ++ zip_with Entry (map name (uploaded_files inp)) reports)%list /\
       length reports <= length (uploaded_files inp) /\
       ((script inp s).2 = Completed -> analyze_all_clicked inp = true ->
        length reports = length (uploaded_files inp)) /\
       (analyze_all_clicked inp = false -> reports = [])) /\
  (forall (runs : list inputs) (s : state),
     history_of s `prefix_of` history_of (run_session runs s)).
Proof.
  split; [apply script_history|apply session_history_grows].
Qed.

Lemma history_append_only_witness :
  let twice := Inputs ∅ [UploadedFile "scan.png" Toy.scan;
                         UploadedFile "scan.png" Toy.scan] true ∅ in
  exists reports,
    history_of (@script Toy.online twice Toy.fresh).1
    = zip_with Entry ["scan.png"; "scan.png"] reports /\
    length reports = 2.
Proof.
  cbv zeta.
  destruct (@history_append_only Toy.online) as [Hrun _].
  destruct (Hrun (Inputs ∅ [UploadedFile "scan.png" Toy.scan;
                            UploadedFile "scan.png" Toy.scan] true ∅) Toy.fresh)
    as (reports & Hh & Hlen & _).
  exists reports. split; [exact Hh|].
  assert (Hc : length (history_of
                 (@script Toy.online
                    (Inputs ∅ [UploadedFile "scan.png" Toy.scan;
                               UploadedFile "scan.png" Toy.scan] true ∅)
                    Toy.fresh).1) = 2)
    by (vm_compute; reflexivity).
  rewrite Hh in Hc. cbn [uploaded_files map length] in Hlen.
  destruct reports as [|a [|b [|c ?]]]; cbn in Hc, Hlen |- *; lia.
Defined.

(** C8. The credential is what [os.getenv] finds under [GEMINI_API_KEY]
    once the [.env] file is loaded. When there is none (the variable is
    unset, or set to the empty string), the run stops at once: the page
    holds the error box and nothing else, and storage, agent calls and
    history are untouched. When there is one, the run goes on and the
    environment holds the same value under [GOOGLE_API_KEY]. *)
Theorem credential_gate {L : Libs} (inp : inputs) (s : state) :
  let env := load_dotenv (dotenv_file inp) (environ s) in
  match env !! "GEMINI_API_KEY" with
  | Some (String c k) =>
      (script inp s).2 <> Stopped /\
      environ (script inp s).1 = <["GOOGLE_API_KEY" := String c k]> env
  | _ =>
      script inp s
      = (State (fs s) env (calls s) (session_history s) [ErrorBox credential_error],
         Stopped)
  end.
Proof.
  cbv zeta. unfold script, os_getenv.
  cbn [environ set_environ set_page fs calls session_history page].
  destruct (load_dotenv _ _ !! "GEMINI_API_KEY") as [[|c k]|];
    [reflexivity| |reflexivity].
  match goal with |- context [main inp ?st] =>
    pose proof (main_keeps_environ inp st) as K;
    destruct (main inp st) as [s3 [e|[]]] end;
    cbn [fst snd environ] in *; (split; [discriminate|exact K]).
Qed.

(** ** The size of the normalized image *)

(** C3 (amended). For an image that decodes to width [w] and height [h]
    (both positive and below [2^31]), lines 79-81 raise nothing, and the
    normalized image that [analyze_medical_image] produces (the result of
    [resize], which it saves and hands to the model) has width 500 and
    the height [int(500 / (w / h))] of double-precision arithmetic, which
    is [floor(500 * h / w)] or one less. When [resize] or [save] raises,
    the exception leaves the function. *)
Theorem normalized_size {L : Libs} (s : state) (path : string) (data : bytes)
    (img : image) (w h : Z) :
  (0 < w < 2 ^ 31)%Z -> (0 < h < 2 ^ 31)%Z ->
  fs s !! path = Some data ->
  pil_open data = inr img ->
  image_size img = (w, h) ->
  exists nh,
    new_height w h = inr nh /\
    (spec_height w h - 1 <= nh <= spec_height w h)%Z /\
    match pil_resize img (500%Z, nh) with
    | inr rz =>
        image_size rz = (500%Z, nh) /\
        match pil_save rz with
        | inr saved =>
            (analyze_medical_image path s).2
            = inr (report_of (agent_run (calls s) query (Some saved)))
        | inl (e, _) => (analyze_medical_image path s).2 = inl e
        end
    | inl e => analyze_medical_image path s = (s, inl e)
    end.
Proof.
  intros Hw Hh Hf Ho Hs.
  destruct (FloatFacts.new_height_bounds w h Hw Hh) as (nh & Hn & Hb).
  exists nh. split; [exact Hn|]. split.
  - rewrite FloatFacts.spec_height_eq by lia. exact Hb.
  - destruct (pil_resize img (500%Z, nh)) as [e|rz] eqn:Hr.
    + eapply analyze_resize_raises; eauto.
    + split; [exact (pil_resize_size _ _ _ Hr)|].
      destruct (pil_save rz) as [[e written]|saved] eqn:Hsv.
      * erewrite analyze_save_raises by eauto. reflexivity.
      * erewrite analyze_decoded by eauto. reflexivity.
Qed.

Lemma normalized_size_witness :
  exists nh, new_height 100 151 = inr nh /\ (754 <= nh <= 755)%Z /\
             exists rz, @pil_resize Toy.online (100, 151)%Z (500, nh)%Z = inr rz /\
                        @image_size Toy.online rz = (500, nh)%Z.
Proof.
  destruct (@normalized_size Toy.online
              (set_fs (insert "temp_scan.png" Toy.scan) Toy.fresh)
              "temp_scan.png" Toy.scan (100, 151)%Z 100 151)
    as (nh & Hn & Hb & Hr); try (vm_compute; reflexivity);
    try (split; reflexivity).
  exists nh. split; [exact Hn|]. split; [exact Hb|].
  destruct (@pil_resize Toy.online (100, 151)%Z (500, nh)%Z) as [e|rz] eqn:E.
  - exfalso. assert (N : nh = 754%Z) by (vm_compute in Hn; congruence).
    subst nh. vm_compute in E. discriminate.
  - exists rz. split; [reflexivity|]. exact (proj1 Hr).
Defined.

(** C3 (counterexample). A 100 x 151 image: [floor(500 / (100 / 151))] is
    755, but [100 / 151] rounds up and [500] divided by it falls just
    below 755: the image produced, which the agent is sent, is 500 x 754. *)
Lemma height_below_exact_floor :
  spec_height 100 151 = 755%Z /\
  new_height 100 151 = inr 754%Z /\
  @pil_resize Toy.echo (100, 151)%Z (500, 754)%Z = inr (500, 754)%Z /\
  @image_size Toy.echo (500, 754)%Z = (500, 754)%Z /\
  exists s',
    @analyze_medical_image Toy.echo "temp_scan.png"
      (set_fs (insert "temp_scan.png" Toy.scan) Toy.fresh)
    = (s', inr "500x754").
Proof.
  split; [vm_compute; reflexivity|]. split; [vm_compute; reflexivity|].
  split; [reflexivity|]. split; [reflexivity|].
  eexists. vm_compute. reflexivity.
Qed.

(** * Further properties *)

(** ** The lines of the exported document *)

Lemma split_on_nonempty sep s : split_on sep s <> [].
Proof.
  destruct s as [|c s]; cbn; [discriminate|].
  destruct (Ascii.eqb c sep); [discriminate|].
  destruct (split_on sep s); discriminate.
Qed.

Lemma concat_cons sep (x : string) (xs : list string) :
  xs <> [] ->
  String.concat sep (x :: xs) = x +:+ sep +:+ String.concat sep xs.
Proof. destruct xs; [congruence|reflexivity]. Qed.

(** X1. The lines [create_pdf] hands to [textLine] are the report cut at
    its newlines: no line contains a newline, there is one line more than
    there are newlines (an empty report gives one empty line), and joining
    the lines with newlines gives the report back. *)
Theorem pdf_lines_round_trip (report_text : string) :
  let lines := split_on newline report_text in
  String.concat (String newline EmptyString) lines = report_text /\
  length lines = S (count_char newline report_text) /\
  Forall (fun line => occurs newline line = false) lines.
Proof.
  cbv zeta. induction report_text as [|c s (IH1 & IH2 & IH3)].
  - cbn. repeat split. repeat constructor.
  - cbn [split_on count_char]. destruct (Ascii.eqb c newline) eqn:E.
    + apply Ascii.eqb_eq in E. subst c. split; [|split].
      * rewrite concat_cons by apply split_on_nonempty. now rewrite IH1.
      * cbn [length]. now rewrite IH2.
      * constructor; [reflexivity|exact IH3].
    + pose proof (split_on_nonempty newline s) as Hne.
      destruct (split_on newline s) as [|x xs]; [congruence|].
      split; [|split].
      * rewrite <- IH1. destruct xs as [|y ys]; [reflexivity|].
        rewrite !concat_cons by discriminate. reflexivity.
      * cbn [length] in *. exact IH2.
      * inversion IH3; subst. constructor; [|assumption].
        cbn [occurs]. now rewrite E.
Qed.

(** ** Document downloads *)

Lemma entry_elements_length {L : Libs} (h : list entry) :
  length (flat_map entry_elements h) = (4 * length h)%nat.
Proof.
  induction h as [|e h IH]; [reflexivity|].
  cbn [flat_map]. rewrite length_app, IH. cbn [length entry_elements]. lia.
Qed.

(** X2. Every document download that rendering puts on the page is made
    from an entry of the history, in the order of the history: it is
    named [<filename>_report.pdf] and its content is drawn from the lines
    of that entry's report. When rendering runs to its end there is one
    for every stored report. It runs to its end when the filenames of the
    history are distinct and the page has no download button yet, and
    then every entry has put four elements on the page, after one
    subheader when the history is not empty. *)
Theorem pdf_export_per_entry {L : Libs} (s : state) (h : list entry) :
  session_history s = Some h ->
  exists s' r k,
    display_reports s = (s', r) /\
    omap pdf_artifact (page s')
    = (omap pdf_artifact (page s)
       ++ map (fun e => (filename e +:+ "_report.pdf",
                         pdf_render (split_on newline (report e)))) (take k h))%list /\
    (r = inr tt -> k = length h) /\
    (ids s = [] -> NoDup (map filename h) ->
     r = inr tt /\
     length (page s')
     = (length (page s) + (if decide (h = []) then 0 else 1) + 4 * length h)%nat).
Proof.
  intros H. destruct (display_reports_pdf s h H) as (k & E & Hk).
  exists (display_reports s).1, (display_reports s).2, k.
  split; [now destruct (display_reports s)|]. split; [exact E|].
  split; [exact Hk|]. intros Hids Hnd.
  rewrite (display_reports_page s h H Hids Hnd). cbn [fst snd page].
  split; [reflexivity|]. rewrite length_app. destruct h as [|e h].
  - rewrite decide_True by reflexivity. cbn [length]. lia.
  - rewrite decide_False by discriminate.
    cbn [length]. rewrite entry_elements_length. cbn [length]. lia.
Qed.

Lemma pdf_export_per_entry_witness :
  exists s',
    @display_reports Toy.online (set_history (Some Toy.two_reports) Toy.fresh)
    = (s', inr tt) /\
    omap pdf_artifact (page s')
    = [("chest1.png_report.pdf", []); ("chest2.png_report.pdf", [])] /\
    length (page s') = 9%nat.
Proof.
  destruct (@pdf_export_per_entry Toy.online
              (set_history (Some Toy.two_reports) Toy.fresh) Toy.two_reports
              eq_refl) as (s' & r & k & E & H1 & Hk & Hr).
  destruct Hr as [-> H2]; [reflexivity| |].
  { apply (bool_decide_unpack (NoDup (map filename Toy.two_reports))).
    vm_compute. exact I. }
  rewrite (Hk eq_refl) in H1.
  exists s'. split; [exact E|]. split; [exact H1|exact H2].
Defined.

(** ** The ways an analysis ends *)

Section Cases.
Context {L : Libs}.

Lemma analyze_cases (path : string) (s : state) :
  (exists e m',
     analyze_medical_image path s =
       (State m' (environ s) (calls s) (session_history s) (page s), inl e) /\
     after_failed_save (fs s) m') \/
  (exists saved,
     analyze_medical_image path s =
       (set_fs (delete temp_path)
          (set_calls S (set_fs (insert temp_path saved) s)),
        inr (report_of (agent_run (calls s) query (Some saved))))).
Proof.
  assert (Same : forall e, (s, @inl exn string e)
                 = (State (fs s) (environ s) (calls s) (session_history s) (page s),
                    inl e)) by (intros; now destruct s).
  destruct (fs s !! path) as [data|] eqn:Hf.
  2: { left. eexists _, (fs s). split; [|now left]. rewrite <- Same.
       unfold analyze_medical_image.
       erewrite bind_err; [reflexivity|].
       unfold PILImage_open. rewrite Hf. reflexivity. }
  destruct (pil_open data) as [e|img] eqn:Ho.
  { left. exists e, (fs s). split; [|now left]. rewrite <- Same.
    unfold analyze_medical_image.
    erewrite bind_err; [reflexivity|].
    unfold PILImage_open. rewrite Hf, Ho. reflexivity. }
  destruct (image_size img) as [w h] eqn:Hs.
  destruct (new_height w h) as [e|nh] eqn:Hn.
  { left. exists e, (fs s). split; [|now left]. rewrite <- Same.
    unfold analyze_medical_image.
    erewrite bind_ok; [|unfold PILImage_open; rewrite Hf, Ho; reflexivity].
    rewrite Hs. erewrite bind_err; [reflexivity|].
    unfold lift. rewrite Hn. reflexivity. }
  destruct (pil_resize img (new_width, nh)) as [e|rz] eqn:Hr.
  { left. exists e, (fs s). split; [|now left]. rewrite <- Same.
    eapply analyze_resize_raises; eauto. }
  destruct (pil_save rz) as [[e written]|saved] eqn:Hsv.
  { left. exists e. erewrite analyze_save_raises by eauto.
    destruct (fs s !! temp_path) as [old|] eqn:Ht.
    - exists (<[temp_path := written]> (fs s)). split; [reflexivity|].
      right. exists written. rewrite Ht. eauto.
    - exists (fs s). split; [apply Same|now left]. }
  right. exists saved. eapply analyze_decoded; eauto.
Qed.

(** One pass of the loop body, whatever the upload: it stops on an
    exception with the upload copy written, no call made and nothing
    stored, or it appends one entry, has called the model once and has
    removed both temporary files. *)
Lemma analyze_one_cases (up : uploaded_file) (s : state) (h0 : list entry) :
  session_history s = Some h0 ->
  (exists e m',
     analyze_one up s =
       (State m' (environ s) (calls s) (Some h0)
              (page s ++ [Spinner ("🔍 Analyzing " +:+ name up +:+ "...")])%list,
        inl e) /\
     after_failed_save (<[image_path_of up := getbuffer up]> (fs s)) m') \/
  (exists rep,
     analyze_one up s =
       (State (delete (image_path_of up) (delete temp_path (fs s))) (environ s)
              (S (calls s)) (Some (h0 ++ [Entry (name up) rep])%list)
              (page s ++ [Spinner ("🔍 Analyzing " +:+ name up +:+ "...")])%list,
        if decide (image_path_of up = temp_path)
        then inl (FileNotFoundError (image_path_of up)) else inr tt)).
Proof.
  intros H. unfold analyze_one.
  erewrite bind_ok; [|reflexivity]. erewrite bind_ok; [|reflexivity].
  rewrite bind_run.
  match goal with |- context [analyze_medical_image ?p ?st] =>
    destruct (analyze_cases p st) as [(e & m' & E & Hm)|[rz E]] end; rewrite E.
  - left. exists e, m'. cbn [fs environ calls session_history page set_fs set_page] in *.
    now rewrite H.
  - right. eexists.
    erewrite bind_ok;
      [|unfold history_append; cbn [session_history set_fs set_calls set_page];
        rewrite H; reflexivity].
    unfold os_remove.
    cbn [fs set_fs set_calls set_page set_history calls environ session_history page].
    rewrite delete_insert_eq.
    destruct (decide (image_path_of up = temp_path)) as [Ep|Ep].
    + rewrite Ep, lookup_delete_eq.
      unfold set_history, set_fs, set_calls, set_page.
      cbn [fs environ calls session_history page].
      now rewrite !delete_insert_eq, delete_delete_eq.
    + rewrite lookup_delete_ne, lookup_insert_eq by congruence.
      unfold set_history, set_fs, set_calls, set_page.
      cbn [fs environ calls session_history page].
      now rewrite fs_after_upload.
Qed.

Lemma after_failed_save_other (m m' : gmap string bytes) (p : string) :
  after_failed_save m m' -> p <> temp_path -> m' !! p = m !! p.
Proof.
  intros [->|(written & _ & ->)] Hp; [reflexivity|].
  now rewrite lookup_insert_ne by congruence.
Qed.

Lemma after_failed_save_absent (m m' : gmap string bytes) (p : string) :
  after_failed_save m m' -> m !! p = None -> m' !! p = None.
Proof.
  intros [->|(written & [old Ho] & ->)] Hp; [exact Hp|].
  rewrite lookup_insert_ne; [exact Hp|]. intros <-. congruence.
Qed.
End Cases.

(** X3. [analyze_medical_image] raises only before the model is called
    (at [open], in the size arithmetic, at [resize] or at [save]): then no
    call was made, history, environment and page are as before, no file
    other than [temp_resized_image.png] has changed and none has appeared
    (a failed [save] can at most change a resized copy that was there
    already). An exception of the model never leaves the function. When
    it returns, the model was called exactly once, the resized copy is
    gone and no other file has changed. *)
Theorem analysis_outcomes {L : Libs} (path : string) (s : state) :
  match analyze_medical_image path s with
  | (s', inl e) =>
      calls s' = calls s /\
      session_history s' = session_history s /\
      environ s' = environ s /\
      page s' = page s /\
      (forall p, p <> temp_path -> fs s' !! p = fs s !! p) /\
      (fs s !! temp_path = None -> fs s' !! temp_path = None)
  | (s', inr rep) =>
      calls s' = S (calls s) /\
      fs s' !! temp_path = None /\
      (forall p, p <> temp_path -> fs s' !! p = fs s !! p) /\
      session_history s' = session_history s
  end.
Proof.
  destruct (analyze_cases path s) as [(e & m' & -> & Hm)|[rz ->]].
  - cbn [fs environ calls session_history page]. repeat split.
    + intros p Hp. now apply (after_failed_save_other (fs s)).
    + now apply after_failed_save_absent.
  - cbn [fs set_fs set_calls calls session_history].
    split; [reflexivity|]. split; [apply lookup_delete_eq|].
    split; [|reflexivity]. intros p Hp.
    rewrite lookup_delete_ne, lookup_insert_ne by congruence. reflexivity.
Qed.

(** ** The Analyze All loop as a whole *)

Lemma analyze_all_summary {L : Libs} (files : list uploaded_file) (s : state)
    (h0 : list entry) :
  session_history s = Some h0 ->
  exists reports,
    session_history (analyze_all files s).1
    = Some (h0 ++ zip_with Entry (map name files) reports)%list /\
    length reports <= length files /\
    calls (analyze_all files s).1 = (calls s + length reports)%nat /\
    environ (analyze_all files s).1 = environ s /\
    forall p, p ∉ temp_paths files ->
              fs (analyze_all files s).1 !! p = fs s !! p.
Proof.
  revert s h0. induction files as [|up files IH]; intros s h0 H.
  - exists []. cbn. rewrite app_nil_r. repeat split; auto.
  - unfold analyze_all. cbn [for_each].
    change (bind ?m ?k) with (m ≫= k). rewrite bind_run.
    fold (analyze_all files).
    assert (Hframe : forall p (m : gmap string bytes),
               p ∉ temp_paths (up :: files) ->
               delete (image_path_of up) (delete temp_path m) !! p = m !! p).
    { intros p m Hp. unfold temp_paths in Hp. cbn [map] in Hp.
      rewrite !not_elem_of_cons in Hp. destruct Hp as (Ht & Hi & _).
      now rewrite !lookup_delete_ne by congruence. }
    assert (Hsub : forall p, p ∉ temp_paths (up :: files) -> p ∉ temp_paths files).
    { intros p Hp. unfold temp_paths in *. cbn [map] in Hp.
      rewrite !not_elem_of_cons in Hp. rewrite not_elem_of_cons. tauto. }
    destruct (analyze_one_cases up s h0 H) as [(e & m' & -> & Hm)|[rep ->]].
    + exists []. cbn [fst zip_with length session_history calls environ fs].
      rewrite app_nil_r, Nat.add_0_r. split; [reflexivity|].
      split; [lia|]. split; [reflexivity|]. split; [reflexivity|].
      intros p Hp. unfold temp_paths in Hp. cbn [map] in Hp.
      rewrite !not_elem_of_cons in Hp. destruct Hp as (Ht & Hi & _).
      rewrite (after_failed_save_other _ _ p Hm Ht).
      now rewrite lookup_insert_ne by congruence.
    + destruct (decide (image_path_of up = temp_path)).
      * exists [rep]. cbn [fst map zip_with length session_history calls environ fs].
        split; [now destruct (map name files)|].
        split; [lia|]. split; [lia|]. split; [reflexivity|].
        intros p Hp. now apply Hframe.
      * match goal with |- context [analyze_all files ?st] =>
          destruct (IH st (h0 ++ [Entry (name up) rep])%list eq_refl)
            as (reports & Hh & Hlen & Hc & He & Hf) end.
        exists (rep :: reports). cbn [map zip_with length].
        rewrite Hh, Hc, He, <- app_assoc.
        cbn [app calls environ fs]. split; [reflexivity|].
        split; [lia|]. split; [lia|]. split; [reflexivity|].
        intros p Hp. rewrite Hf by now apply Hsub.
        cbn [fs]. now apply Hframe.
Qed.

(** X4. The loop calls the model exactly once for every report it stores:
    after Analyze All the number of calls has grown by the number of
    entries appended (no retry, and no call without a stored report). *)
Theorem one_call_per_report {L : Libs} (files : list uploaded_file) (s : state)
    (h0 : list entry) :
  session_history s = Some h0 ->
  exists reports,
    session_history (analyze_all files s).1
    = Some (h0 ++ zip_with Entry (map name files) reports)%list /\
    length reports <= length files /\
    calls (analyze_all files s).1 = (calls s + length reports)%nat.
Proof.
  intros H.
  destruct (analyze_all_summary files s h0 H) as (reports & Hh & Hl & Hc & _).
  exists reports. auto.
Qed.

Lemma one_call_per_report_witness :
  let files := [UploadedFile "a.png" Toy.scan; UploadedFile "wide.png" Toy.strip;
                UploadedFile "c.png" Toy.scan] in
  let s := set_history (Some []) Toy.fresh in
  exists reports,
    session_history (@analyze_all Toy.online files s).1
    = Some (zip_with Entry ["a.png"; "wide.png"; "c.png"] reports) /\
    length reports = 1%nat.
Proof.
  cbv zeta.
  destruct (@one_call_per_report Toy.online
              [UploadedFile "a.png" Toy.scan; UploadedFile "wide.png" Toy.strip;
               UploadedFile "c.png" Toy.scan]
              (set_history (Some []) Toy.fresh) [] eq_refl)
    as (reports & Hh & _ & Hc).
  exists reports. split; [exact Hh|].
  change (1 = 0 + length reports)%nat in Hc. lia.
Defined.

(** X5. Analyze All touches no file but its own temporary ones: whatever
    happens (also when the run ends on an exception), every path other
    than [temp_resized_image.png] and the [temp_<name>] of the uploads
    holds after the loop what it held before, and the environment is
    unchanged. *)
Theorem other_files_untouched {L : Libs} (files : list uploaded_file)
    (s : state) (h0 : list entry) (p : string) :
  session_history s = Some h0 ->
  p <> temp_path ->
  (forall up, up ∈ files -> p <> "temp_" +:+ name up) ->
  fs (analyze_all files s).1 !! p = fs s !! p /\
  environ (analyze_all files s).1 = environ s.
Proof.
  intros H Ht Hu.
  destruct (analyze_all_summary files s h0 H) as (reports & _ & _ & _ & He & Hf).
  split; [|exact He]. apply Hf. unfold temp_paths.
  rewrite not_elem_of_cons. split; [exact Ht|].
  intros Hin. apply list_elem_of_fmap in Hin as (up & -> & Hin).
  now apply (Hu up Hin).
Qed.

Lemma other_files_untouched_witness :
  let s := set_history (Some [])
             (set_fs (insert "notes.txt" [Byte.x68; Byte.x69]) Toy.fresh) in
  fs (@analyze_all Toy.online
        [UploadedFile "a.png" Toy.scan; UploadedFile "wide.png" Toy.strip] s).1
    !! "notes.txt" = Some [Byte.x68; Byte.x69].
Proof.
  cbv zeta.
  destruct (@other_files_untouched Toy.online
              [UploadedFile "a.png" Toy.scan; UploadedFile "wide.png" Toy.strip]
              (set_history (Some [])
                 (set_fs (insert "notes.txt" [Byte.x68; Byte.x69]) Toy.fresh))
              [] "notes.txt" eq_refl) as [Hf _].
  - discriminate.
  - intros up Hin. apply list_elem_of_In in Hin. cbn in Hin.
    destruct Hin as [<-|[<-|[]]]; discriminate.
  - rewrite Hf. vm_compute. reflexivity.
Defined.

Lemma analyze_all_completed {L : Libs} (files : list uploaded_file) :
  forall (s s' : state) (h0 : list entry),
    session_history s = Some h0 ->
    analyze_all files s = (s', inr tt) ->
    (forall p, fs s !! p = None -> fs s' !! p = None) /\
    (files <> [] -> forall p, p ∈ temp_paths files -> fs s' !! p = None).
Proof.
  induction files as [|up files IH]; intros s s' h0 H E.
  - injection E as <-. split; [auto|congruence].
  - unfold analyze_all in E. cbn [for_each] in E.
    change (bind ?m ?k) with (m ≫= k) in E. rewrite bind_run in E.
    fold (analyze_all files) in E.
    destruct (analyze_one_cases up s h0 H) as [(e & m' & E1 & _)|[rep E1]];
      rewrite E1 in E; [discriminate|].
    destruct (decide (image_path_of up = temp_path)) as [|Hne]; [discriminate|].
    destruct (IH _ s' _ (eq_refl : session_history (State _ _ _ _ _) = Some _) E)
      as [Hkeep Hgone]. cbn [fs] in Hkeep.
    assert (Hdel : forall p, fs s !! p = None \/ p = temp_path \/ p = image_path_of up ->
                             fs s' !! p = None).
    { intros p Hp. apply Hkeep. rewrite !lookup_delete_None.
      destruct Hp as [Hp|[ -> | -> ]];
        [right; right; exact Hp|right; left; reflexivity|left; reflexivity]. }
    split; [intros p Hp; apply Hdel; tauto|].
    intros _ p Hp. unfold temp_paths in Hp. cbn [map] in Hp.
    rewrite !elem_of_cons in Hp. destruct Hp as [->|[->|Hp]].
    + apply Hdel. tauto.
    + apply Hdel. tauto.
    + apply Hgone.
      * intros ->. cbn in Hp. now apply elem_of_nil in Hp.
      * unfold temp_paths. rewrite elem_of_cons. tauto.
Qed.

(** X6. When Analyze All runs to its end, none of its temporary files is
    left: [temp_resized_image.png] and the [temp_<name>] of every upload
    are absent from storage (also when a file of that name was there
    before the run), and nothing that was absent has appeared. *)
Theorem temp_files_gone_on_completion {L : Libs} (files : list uploaded_file)
    (s s' : state) (h0 : list entry) :
  session_history s = Some h0 ->
  files <> [] ->
  analyze_all files s = (s', inr tt) ->
  fs s' !! temp_path = None /\
  (forall up, up ∈ files -> fs s' !! ("temp_" +:+ name up) = None) /\
  (forall p, fs s !! p = None -> fs s' !! p = None).
Proof.
  intros H Hne E.
  destruct (analyze_all_completed files s s' h0 H E) as [Hkeep Hgone].
  specialize (Hgone Hne). split; [|split; [|exact Hkeep]].
  - apply Hgone. unfold temp_paths. apply list_elem_of_here.
  - intros up Hin. apply Hgone. unfold temp_paths.
    apply list_elem_of_further.
    change ("temp_" +:+ name up) with (image_path_of up).
    now apply list_elem_of_fmap_2.
Qed.

Lemma temp_files_gone_on_completion_witness :
  let files := [UploadedFile "a.png" Toy.scan; UploadedFile "b.png" Toy.scan] in
  let s := set_history (Some [])
             (set_fs (insert "temp_b.png" [Byte.x00]) Toy.fresh) in
  fs (@analyze_all Toy.online files s).1 !! "temp_b.png" = None.
Proof.
  cbv zeta.
  destruct (@temp_files_gone_on_completion Toy.online
              [UploadedFile "a.png" Toy.scan; UploadedFile "b.png" Toy.scan]
              (set_history (Some [])
                 (set_fs (insert "temp_b.png" [Byte.x00]) Toy.fresh))
              (@analyze_all Toy.online
                 [UploadedFile "a.png" Toy.scan; UploadedFile "b.png" Toy.scan]
                 (set_history (Some [])
                    (set_fs (insert "temp_b.png" [Byte.x00]) Toy.fresh))).1
              [] eq_refl) as (_ & Hup & _).
  - discriminate.
  - vm_compute. reflexivity.
  - apply (Hup (UploadedFile "b.png" Toy.scan)).
    apply list_elem_of_further, list_elem_of_here.
Defined.

(** X7. An upload called [resized_image.png] has the path of the resized
    copy as its own temporary path: the loop never gets past it. Either
    its analysis raises and nothing is stored, or its report is stored
    and the [os.remove] of line 161 raises [FileNotFoundError], the file
    being gone already; the uploads after it are not analysed. *)
Theorem upload_named_resized_image {L : Libs} (up : uploaded_file)
    (rest : list uploaded_file) (s : state) (h0 : list entry) :
  name up = "resized_image.png" ->
  session_history s = Some h0 ->
  exists s' e,
    analyze_all (up :: rest) s = (s', inl e) /\
    (session_history s' = Some h0 /\ calls s' = calls s \/
     e = FileNotFoundError temp_path /\ calls s' = S (calls s) /\
     fs s' !! temp_path = None /\
     exists rep, session_history s' = Some (h0 ++ [Entry (name up) rep])%list).
Proof.
  intros Hname H.
  assert (Hp : image_path_of up = temp_path)
    by (unfold image_path_of; rewrite Hname; reflexivity).
  unfold analyze_all. cbn [for_each].
  change (bind ?m ?k) with (m ≫= k). rewrite bind_run.
  destruct (analyze_one_cases up s h0 H) as [(e & m' & -> & _)|[rep ->]].
  - do 2 eexists. split; [reflexivity|]. left. split; reflexivity.
  - rewrite decide_True by exact Hp. do 2 eexists. split; [reflexivity|].
    right. rewrite Hp. split; [reflexivity|]. split; [reflexivity|].
    split; [cbn [fs]; apply lookup_delete_eq|]. now exists rep.
Qed.

Lemma upload_named_resized_image_witness :
  let files := [UploadedFile "resized_image.png" Toy.scan;
                UploadedFile "next.png" Toy.scan] in
  exists s' e,
    @analyze_all Toy.online files (set_history (Some []) Toy.fresh) = (s', inl e) /\
    length (history_of s') <= 1.
Proof.
  cbv zeta.
  destruct (@upload_named_resized_image Toy.online
              (UploadedFile "resized_image.png" Toy.scan)
              [UploadedFile "next.png" Toy.scan]
              (set_history (Some []) Toy.fresh) [] eq_refl eq_refl)
    as (s' & e & E & [[Hh _]|(_ & _ & _ & rep & Hh)]);
    exists s', e; (split; [exact E|]); unfold history_of; rewrite Hh; cbn; lia.
Defined.

(** ** Runs that only render *)

Lemma emit_keeps_analysis e : keeps analysis_state (emit e).
Proof. intros s. reflexivity. Qed.
Lemma get_history_keeps_analysis : keeps analysis_state get_history.
Proof. intros s. unfold get_history. now destruct (session_history s). Qed.
Lemma init_keeps_analysis : keeps analysis_state init_history.
Proof. intros s. unfold init_history. now destruct (session_history s) eqn:E;
  unfold analysis_state, history_of; cbn; rewrite ?E. Qed.

Lemma download_keeps_analysis l d f m :
  keeps analysis_state (st_download_button l d f m).
Proof. intros s. unfold st_download_button. now case_decide. Qed.
Lemma display_entry_keeps_analysis {L : Libs} e :
  keeps analysis_state (display_entry e).
Proof.
  apply display_entry_keeps;
    auto using emit_keeps_analysis, download_keeps_analysis.
Qed.
Lemma st_image_keeps_analysis {L : Libs} up : keeps analysis_state (st_image up).
Proof. apply st_image_keeps; auto using emit_keeps_analysis. Qed.

#[local] Hint Resolve emit_keeps_analysis get_history_keeps_analysis
  init_keeps_analysis download_keeps_analysis display_entry_keeps_analysis
  st_image_keeps_analysis : keeps.

Lemma main_without_click {L : Libs} (inp : inputs) :
  analyze_all_clicked inp = false -> keeps analysis_state (main inp).
Proof.
  intros Hc. unfold main, setup_page, upload_images, display_reports,
    compare_reports. rewrite Hc. keeps_auto.
Qed.

(** X8. A run in which Analyze All is not clicked (the page is opened, a
    file is picked, a comparison menu is changed) only renders: it writes
    and removes no file, calls the model not at all and leaves the
    history as it is, with or without a credential. *)
Theorem rerun_without_click {L : Libs} (inp : inputs) (s : state) :
  analyze_all_clicked inp = false ->
  fs (script inp s).1 = fs s /\
  calls (script inp s).1 = calls s /\
  history_of (script inp s).1 = history_of s.
Proof.
  intros Hc.
  assert (E : analysis_state (script inp s).1 = analysis_state s).
  { unfold script. destruct (os_getenv _ _) as [[|c k]|]; try reflexivity.
    match goal with |- context [main inp ?st] =>
      pose proof (main_without_click inp Hc st) as K;
      destruct (main inp st) as [s3 [e|[]]] end; exact K. }
  unfold analysis_state in E. injection E as E1 E2 E3. auto.
Qed.

Lemma rerun_without_click_witness :
  let inp := Inputs ∅ [UploadedFile "a.png" Toy.scan] false
               {["report2" := "chest2.png"]} in
  let s := set_history (Some Toy.two_reports) Toy.fresh in
  calls (@script Toy.online inp s).1 = 0%nat /\
  history_of (@script Toy.online inp s).1 = Toy.two_reports.
Proof.
  cbv zeta.
  destruct (@rerun_without_click Toy.online
              (Inputs ∅ [UploadedFile "a.png" Toy.scan] false
                 {["report2" := "chest2.png"]})
              (set_history (Some Toy.two_reports) Toy.fresh) eq_refl)
    as (_ & Hcalls & Hhist).
  split; [exact Hcalls|exact Hhist].
Defined.

(** ** More on the requested height *)

Module HeightFacts.
Import Binary.
Local Open Scope Z_scope.

(** [w / w] is [1.0]. *)
Lemma truediv_self (p : positive) :
  SFdiv PyFloat.prec PyFloat.emax (S754_finite false p 0) (S754_finite false p 0)
  = S754_finite false 4503599627370496 (-52).
Proof.
  unfold SFdiv, SFdiv_core_binary. cbn [Zdigits2 xorb].
  replace (Zpos (digits2_pos p) + 0 - (Zpos (digits2_pos p) + 0)) with 0 by lia.
  change (Z.min (fexp PyFloat.prec PyFloat.emax 0) (0 - 0)) with (-53).
  change (0 - 0 - -53) with 53.
  rewrite Z.shiftl_mul_pow2 by lia.
  pose proof (Z.div_mul (2 ^ 53) (Zpos p) ltac:(lia)) as Hq.
  pose proof (Z.mod_mul (2 ^ 53) (Zpos p) ltac:(lia)) as Hr.
  rewrite (Z.mul_comm (2 ^ 53)) in Hq, Hr.
  unfold Z.div in Hq. unfold Z.modulo in Hr.
  destruct (Z.div_eucl (Zpos p * 2 ^ 53) (Zpos p)) as [q r].
  cbn [fst snd] in Hq, Hr. subst q r.
  unfold new_location, new_location_even, new_location_odd.
  cbn [Z.eqb]. destruct (Z.even (Zpos p)); vm_compute; reflexivity.
Qed.

(** The quotient that is truncated is a positive number, so its integer
    part is not negative. *)
Lemma new_height_nonneg (w h : Z) :
  0 < w < 2 ^ 31 -> 0 < h < 2 ^ 31 ->
  exists nh, new_height w h = inr nh /\ 0 <= nh.
Proof.
  intros Hw Hh.
  destruct w as [|pw|pw]; [lia| |lia]. destruct h as [|ph|ph]; [lia| |lia].
  pose proof (FloatFacts.digits2_pos_le pw 31 (proj2 Hw)) as Dw.
  pose proof (FloatFacts.digits2_pos_le ph 31 (proj2 Hh)) as Dh.
  pose proof (FloatFacts.SFdiv_relative pw ph 0 0) as H1. cbv zeta in H1.
  destruct H1 as (ma & t1 & E1 & Ht1 & Hma & _); [lia|lia|lia|].
  set (ea := Zpos (digits2_pos pw) + 0 - (Zpos (digits2_pos ph) + 0) - 53 + t1) in *.
  assert (Hea : -84 <= ea <= -20) by (unfold ea; lia).
  pose proof (FloatFacts.SFdiv_relative f500 ma (-44) ea) as H2. cbv zeta in H2.
  rewrite FloatFacts.digits2_f500, (FloatFacts.digits2_pos_unique ma 53) in H2
    by (cbn; lia).
  destruct H2 as (mb & t2 & E2 & Ht2 & Hmb & _); [lia|lia|lia|].
  set (eb := 53 + -44 - (53 + ea) - 53 + t2) in *.
  assert (Heb : eb < 0) by (unfold eb; lia).
  destruct (FloatFacts.to_int_floor mb eb Heb) as (nh & E3 & Hnh).
  exists nh. split.
  { unfold new_height, PyFloat.int_truediv. cbn [Z.eqb PyFloat.of_Z_exact].
    rewrite E1. unfold PyFloat.int_float_truediv, new_width.
    rewrite FloatFacts.of_int_500. unfold PyFloat.float_truediv.
    cbn [PyFloat.is_zero]. rewrite E2. exact E3. }
  pose proof (FloatFacts.F2R_pos mb eb) as Hp.
  assert (L : (IZR (-1) < IZR nh)%R).
  { change (IZR (-1)) with (-1)%R. lra. }
  apply lt_IZR in L. lia.
Qed.

(** Division by a zero height, and of 500 by a zero aspect ratio. *)
Lemma new_height_zero_height (w : Z) :
  new_height w 0 = inl (ZeroDivisionError "division by zero").
Proof. reflexivity. Qed.

Lemma new_height_zero_width (h : Z) :
  h <> 0 -> new_height 0 h = inl (ZeroDivisionError "float division by zero").
Proof. intros Hh. destruct h as [|p|p]; [lia| |]; reflexivity. Qed.
End HeightFacts.

(** X9.  A square image is asked to be resized to 500 x 500 exactly: for
    every positive side [w], [int(500 / (w / w))] is 500, with no rounding
    loss. *)
Theorem square_image_height (w : Z) :
  (0 < w)%Z -> new_height w w = inr 500%Z.
Proof.
  intros Hw. destruct w as [|p|p]; [lia| |lia].
  unfold new_height, PyFloat.int_truediv. cbn [Z.eqb PyFloat.of_Z_exact].
  rewrite HeightFacts.truediv_self. vm_compute. reflexivity.
Qed.

Lemma square_image_height_witness : new_height 1024 1024 = inr 500%Z.
Proof.
  apply (square_image_height 1024). lia.
Defined.

(** X10.  For an image of positive width and height below 2^31 the height
    asked of [resize] is never negative, and it is 0 as soon as the image
    is more than 500 times as wide as it is high: the code then asks for a
    resize to 500 x 0. *)
Theorem height_never_negative (w h : Z) :
  (0 < w < 2 ^ 31)%Z -> (0 < h < 2 ^ 31)%Z ->
  exists nh, new_height w h = inr nh /\ (0 <= nh)%Z /\
             ((500 * h < w)%Z -> nh = 0%Z).
Proof.
  intros Hw Hh.
  destruct (HeightFacts.new_height_nonneg w h Hw Hh) as (nh & E & H0).
  exists nh. split; [exact E|]. split; [exact H0|]. intros Hflat.
  destruct (FloatFacts.new_height_bounds w h Hw Hh) as (nh' & E' & _ & Hup).
  rewrite E in E'. injection E' as <-.
  rewrite Z.div_small in Hup by lia. lia.
Qed.

Lemma height_never_negative_witness :
  exists nh, new_height 1001 2 = inr nh /\ (0 <= nh)%Z /\
             ((500 * 2 < 1001)%Z -> nh = 0%Z).
Proof.
  apply (height_never_negative 1001 2); lia.
Defined.

(** X11.  An image whose width or height is 0 makes
    [analyze_medical_image] raise [ZeroDivisionError] (lines 79-80 are
    outside the [try]): no resized copy is written, the agent is not
    called, and the state is what it was. *)
Theorem zero_sized_image {L : Libs} (path : string) (s : state)
    (data : bytes) (img : image) (w h : Z) :
  fs s !! path = Some data -> pil_open data = inr img ->
  image_size img = (w, h) -> w = 0%Z \/ h = 0%Z ->
  exists msg,
    analyze_medical_image path s = (s, inl (ZeroDivisionError msg)).
Proof.
  intros Hf Ho Hs Hz.
  assert (exists msg, new_height w h = inl (ZeroDivisionError msg)) as [msg Hn].
  { destruct (decide (h = 0%Z)) as [->|Hh].
    - eexists. apply HeightFacts.new_height_zero_height.
    - destruct Hz as [->|?]; [|contradiction].
      eexists. apply HeightFacts.new_height_zero_width. exact Hh. }
  exists msg. unfold analyze_medical_image.
  erewrite bind_ok; [|unfold PILImage_open; rewrite Hf, Ho; reflexivity].
  rewrite Hs. erewrite bind_err; [reflexivity|].
  unfold lift. rewrite Hn. reflexivity.
Qed.

Lemma zero_sized_image_witness :
  exists msg,
    @analyze_medical_image Toy.online "temp_empty.png"
      (set_fs (insert "temp_empty.png" [Byte.x00; Byte.x10; Byte.x00]) Toy.fresh)
    = (set_fs (insert "temp_empty.png" [Byte.x00; Byte.x10; Byte.x00]) Toy.fresh,
       inl (ZeroDivisionError msg)).
Proof.
  apply (@zero_sized_image Toy.online "temp_empty.png" _
           [Byte.x00; Byte.x10; Byte.x00] (0%Z, 16%Z) 0%Z 16%Z);
    try (vm_compute; reflexivity).
  left. reflexivity.
Defined.

(** ** What a whole run shows *)

Section PageFrame.
Context {L : Libs} {B : Type}.
Variable g : element -> option B.

Lemma emit_keeps_seen el :
  g el = None -> keeps (fun s => omap g (page s)) (emit el).
Proof.
  intros H s. unfold emit. cbn [fst page set_page].
  rewrite omap_app. cbn [omap list_omap]. rewrite H. apply app_nil_r.
Qed.

Lemma write_keeps_seen p d : keeps (fun s => omap g (page s)) (write_file p d).
Proof. intros s. reflexivity. Qed.
Lemma remove_keeps_seen p : keeps (fun s => omap g (page s)) (os_remove p).
Proof. intros s. unfold os_remove. now destruct (fs s !! p). Qed.
Lemma append_keeps_seen e : keeps (fun s => omap g (page s)) (history_append e).
Proof. intros s. unfold history_append. now destruct (session_history s). Qed.
Lemma open_keeps_seen p : keeps (fun s => omap g (page s)) (PILImage_open p).
Proof. intros s. unfold PILImage_open. now destruct (fs s !! p). Qed.
Lemma agent_keeps_seen q p :
  keeps (fun s => omap g (page s)) (medical_agent_run q p).
Proof. intros s. reflexivity. Qed.

Lemma save_keeps_seen im p : keeps (fun s => omap g (page s)) (image_save im p).
Proof.
  intros s. unfold image_save.
  destruct (pil_save im) as [[e written]|data]; [|reflexivity].
  now destruct (fs s !! p).
Qed.

Lemma analyze_keeps_seen path :
  keeps (fun s => omap g (page s)) (analyze_medical_image path).
Proof.
  apply analyze_keeps; auto using open_keeps_seen, save_keeps_seen,
    agent_keeps_seen, remove_keeps_seen.
Qed.

Lemma download_keeps_seen l d f m :
  g (DownloadButton l d f m) = None ->
  keeps (fun s => omap g (page s)) (st_download_button l d f m).
Proof.
  intros H s. unfold st_download_button. case_decide; [reflexivity|].
  now apply emit_keeps_seen.
Qed.

Hypothesis H_blind : blind_to_controls g.

Lemma analyze_one_keeps_seen up :
  keeps (fun s => omap g (page s)) (analyze_one up).
Proof.
  unfold analyze_one.
  apply keeps_bind; [apply emit_keeps_seen, (H_blind (Spinner _))|intros _].
  apply keeps_bind; [apply write_keeps_seen|intros _].
  apply keeps_bind; [apply analyze_keeps_seen|intros rep].
  apply keeps_bind; [apply append_keeps_seen|intros _].
  apply remove_keeps_seen.
Qed.

Lemma st_image_keeps_seen up : keeps (fun s => omap g (page s)) (st_image up).
Proof.
  unfold st_image.
  apply keeps_bind; [apply keeps_lift|intros im].
  apply keeps_bind; [apply keeps_lift|intros _].
  apply emit_keeps_seen, (H_blind (ImageView _)).
Qed.

Lemma upload_images_keeps_seen inp :
  keeps (fun s => omap g (page s)) (upload_images inp).
Proof.
  unfold upload_images.
  apply keeps_bind; [apply emit_keeps_seen, (H_blind (SidebarHeader _))|intros _].
  apply keeps_bind; [apply emit_keeps_seen, (H_blind (FileUploader _ _))|intros _].
  destruct (uploaded_files inp) as [|f files]; [apply keeps_ret|].
  apply keeps_bind; [|intros _].
  { apply keeps_for_each, st_image_keeps_seen. }
  apply keeps_bind; [apply emit_keeps_seen, (H_blind (SidebarButton _))|intros _].
  destruct (analyze_all_clicked inp); [|apply keeps_ret].
  apply keeps_for_each, analyze_one_keeps_seen.
Qed.

Lemma setup_page_seen (s : state) :
  omap g (page (setup_page s).1) = omap g (page s).
Proof.
  rewrite setup_page_run. cbn [fst page]. rewrite omap_app.
  cbn [omap list_omap].
  rewrite (H_blind (PageConfig _ _)), (H_blind (Title _)), (H_blind (Markdown _)).
  apply app_nil_r.
Qed.

(** A view that sees neither headings nor download buttons sees nothing
    of the results section. *)
Lemma display_keeps_seen :
  (forall b, g (Subheader b) = None) ->
  (forall l d f m, g (DownloadButton l d f m) = None) ->
  keeps (fun s => omap g (page s)) display_reports.
Proof.
  intros Hs Hd. unfold display_reports.
  apply keeps_bind; [intros s; unfold get_history; now destruct (session_history s)|].
  intros [|e h]; [apply keeps_ret|].
  apply keeps_bind; [apply emit_keeps_seen, Hs|intros _].
  apply keeps_for_each. intros a. unfold display_entry, txt_button, pdf_button.
  apply keeps_bind; [apply emit_keeps_seen, (H_blind (Markdown _))|intros _].
  apply keeps_bind; [apply emit_keeps_seen, (H_blind (Markdown _))|intros _].
  apply keeps_bind; [apply download_keeps_seen, Hd|intros _].
  apply download_keeps_seen, Hd.
Qed.
End PageFrame.

Lemma txt_blind_to_controls : blind_to_controls txt_artifact.
Proof. intros []; try exact I; reflexivity. Qed.

Lemma results_blind_to_controls : blind_to_controls result_element.
Proof. intros []; try exact I; reflexivity. Qed.

Lemma ids_blind_to_controls : blind_to_controls element_id.
Proof. intros []; try exact I; reflexivity. Qed.

Lemma columns_blind_to_controls : blind_to_controls column_of.
Proof. intros []; try exact I; reflexivity. Qed.

(** The sidebar raises only when there is an upload to show or analyse. *)
Lemma upload_images_raises {L : Libs} (inp : inputs) (s s' : state) (e : exn) :
  upload_images inp s = (s', inl e) -> uploaded_files inp <> [].
Proof.
  rewrite upload_images_run. cbv zeta.
  destruct (uploaded_files inp) as [|f files]; [discriminate|].
  intros _. discriminate.
Qed.

(** The comparison view raises nothing and offers no download. *)
Lemma compare_reports_quiet {L : Libs} (ws : gmap string string) (s : state)
    (h : list entry) :
  session_history s = Some h ->
  exists s', compare_reports ws s = (s', inr tt) /\
             session_history s' = Some h /\
             omap txt_artifact (page s') = omap txt_artifact (page s).
Proof.
  intros H. destruct (decide (2 <= length h)) as [Hlen|Hlen].
  - destruct (menu_selection h "report1" ws Hlen) as (f1 & S1 & In1).
    destruct (menu_selection h "report2" ws Hlen) as (f2 & S2 & In2).
    destruct (compare_lookup_menu h f1 f2 In1 In2)
      as (i1 & r1 & i2 & r2 & _ & _ & Hlook).
    pose proof (compare_reports_page ws s h H Hlen) as Hpage. cbv zeta in Hpage.
    rewrite S1, S2, Hlook in Hpage. rewrite Hpage.
    destruct (truthy (Some f1) && truthy (Some f2) && bool_decide (f1 ≠ f2));
      eexists; (split; [reflexivity|]); cbn [session_history page];
      (split; [exact H|]); rewrite omap_app; cbn; apply app_nil_r.
  - exists s. split; [now apply (compare_reports_short ws s h)|]. auto.
Qed.

(** The page body, step by step. *)
Lemma main_run {L : Libs} (inp : inputs) (s : state) :
  main inp s =
    match upload_images inp (setup_page s).1 with
    | (s2, inl e) => (s2, inl e)
    | (s2, inr _) =>
        match display_reports s2 with
        | (s3, inl e) => (s3, inl e)
        | (s3, inr _) => compare_reports (widgets inp) s3
        end
    end.
Proof.
  unfold main. rewrite bind_run, setup_page_run. cbn [fst]. rewrite bind_run.
  destruct (upload_images inp _) as [s2 [e|[]]]; [reflexivity|].
  rewrite bind_run. now destruct (display_reports s2) as [s3 [e|[]]].
Qed.

Lemma setup_page_history {L : Libs} (s : state) :
  session_history (setup_page s).1 = Some (history_of s).
Proof. now rewrite setup_page_run. Qed.

(** A body that ends normally has rendered the whole history, whose
    filenames are distinct. *)
Lemma main_completed {L : Libs} (inp : inputs) (s s' : state) :
  main inp s = (s', inr tt) ->
  omap txt_artifact (page s')
  = (omap txt_artifact (page s)
     ++ map (fun e => (filename e +:+ "_report.txt", report e))
            (history_of s'))%list /\
  NoDup (map filename (history_of s')).
Proof.
  rewrite main_run.
  pose proof (setup_page_seen txt_artifact txt_blind_to_controls s) as T0.
  pose proof (setup_page_history s) as H1.
  pose proof (upload_images_keeps_seen txt_artifact txt_blind_to_controls inp
                (setup_page s).1) as T1.
  destruct (upload_images_history inp _ _ H1) as (reports & H2 & _).
  destruct (upload_images inp _) as [s2 [e|[]]]; [discriminate|].
  cbn [fst] in T1, H2.
  destruct (display_reports_txt s2 _ H2) as (k & T3 & Hk).
  pose proof (display_keeps_history s2) as H3. rewrite H2 in H3.
  assert (Hnd : (display_reports s2).2 = inr tt ->
                NoDup (map filename
                  (history_of s ++ zip_with Entry (map name (uploaded_files inp)) reports)%list)).
  { intros Hr. destruct (decide (NoDup (map filename
      (history_of s ++ zip_with Entry (map name (uploaded_files inp)) reports)%list)))
      as [?|Hn]; [assumption|].
    rewrite (display_reports_repeated s2 _ H2 Hn) in Hr. discriminate. }
  destruct (display_reports s2) as [s3 [e|[]]]; [discriminate|].
  cbn [fst snd] in T3, Hk, H3, Hnd.
  destruct (compare_reports_quiet (widgets inp) s3 _ H3) as (s4 & E4 & H4 & T4).
  rewrite E4. intros E. injection E as <-.
  unfold history_of at 1 2. rewrite H4. cbn [default]. split; [|now apply Hnd].
  rewrite T4, T3, T1, T0, (Hk eq_refl), firstn_all. reflexivity.
Qed.

(** A body that raises on an empty page: the exception comes from the
    sidebar, before anything is rendered, or from a download button of
    the results, and the comparison view is not reached. *)
Lemma main_raised {L : Libs} (inp : inputs) (s s' : state) (e : exn) :
  page s = [] ->
  main inp s = (s', inl e) ->
  columns (page s') = [] /\
  ((uploaded_files inp <> [] /\ results (page s') = []) \/
   (e = duplicate_button /\ ~ NoDup (map filename (history_of s')))).
Proof.
  intros Hp. rewrite main_run.
  pose proof (setup_page_seen column_of columns_blind_to_controls s) as C0.
  pose proof (setup_page_seen result_element results_blind_to_controls s) as R0.
  pose proof (setup_page_seen element_id ids_blind_to_controls s) as I0.
  rewrite Hp in C0, R0, I0. cbn [omap list_omap] in C0, R0, I0.
  pose proof (setup_page_history s) as H1.
  pose proof (upload_images_keeps_seen column_of columns_blind_to_controls
                inp (setup_page s).1) as C1.
  pose proof (upload_images_keeps_seen result_element results_blind_to_controls
                inp (setup_page s).1) as R1.
  pose proof (upload_images_keeps_seen element_id ids_blind_to_controls
                inp (setup_page s).1) as I1.
  destruct (upload_images_history inp _ _ H1) as (reports & H2 & _).
  destruct (upload_images inp _) as [s2 [e2|[]]] eqn:EU;
    cbn [fst] in C1, R1, I1, H2.
  { intros E. injection E as <- <-. unfold columns, results.
    split; [congruence|]. left. split; [|congruence].
    exact (upload_images_raises inp _ _ _ EU). }
  pose proof (display_keeps_seen column_of columns_blind_to_controls
                ltac:(reflexivity) ltac:(reflexivity) s2) as C3.
  pose proof (display_keeps_history s2) as H3. rewrite H2 in H3.
  pose proof (display_reports_outcome s2 _ H2) as O3.
  destruct (display_reports s2) as [s3 [e3|[]]] eqn:ED; cbn [fst snd] in C3, H3, O3.
  - intros E. injection E as <- <-. unfold columns.
    split; [congruence|]. right.
    split; [destruct O3 as [O3|O3]; congruence|].
    unfold history_of. rewrite H3. cbn [default]. intros Hnd.
    assert (Hi : ids s2 = []) by (unfold ids; congruence).
    rewrite (display_reports_page s2 _ H2 Hi Hnd) in ED. discriminate.
  - destruct (compare_reports_quiet (widgets inp) s3 _ H3) as (s4 & E4 & _).
    rewrite E4. discriminate.
Qed.

(** X12.  A run that completes shows every report of the history as it
    stands after the run, the ones just made included: the page offers one
    plain-text download per entry, in the order of the history, and no
    other. *)
Theorem completed_run_shows_history {L : Libs} (inp : inputs) (s : state) :
  (script inp s).2 = Completed ->
  omap txt_artifact (page (script inp s).1)
  = map (fun e => (filename e +:+ "_report.txt", report e))
        (history_of (script inp s).1).
Proof.
  unfold script. destruct (os_getenv _ _) as [[|c k]|]; try discriminate.
  match goal with |- context [main inp ?st] =>
    pose proof (main_completed inp st) as K;
    destruct (main inp st) as [s3 [e|[]]] end; [discriminate|].
  intros _. exact (proj1 (K s3 eq_refl)).
Qed.

Lemma completed_run_shows_history_witness :
  let inp := Inputs ∅ [UploadedFile "scan.png" Toy.scan] true ∅ in
  let s := set_history (Some Toy.two_reports) Toy.fresh in
  omap txt_artifact (page (@script Toy.online inp s).1)
  = map (fun e => (filename e +:+ "_report.txt", report e))
        (history_of (@script Toy.online inp s).1).
Proof.
  cbv zeta.
  apply (@completed_run_shows_history Toy.online
           (Inputs ∅ [UploadedFile "scan.png" Toy.scan] true ∅)
           (set_history (Some Toy.two_reports) Toy.fresh)).
  vm_compute. reflexivity.
Defined.

(** X13.  A run ends on an exception in one of two places only. Either
    in the sidebar, while an upload is shown or analysed: then there is at
    least one upload and the page shows no result at all (no heading of
    the results or of the comparison, no download button, no column), so
    the reports of earlier runs are not displayed either. Or at a
    download button of the results whose identity repeats: then the
    exception is [StreamlitDuplicateElementId] and the history holds a
    filename twice. In both cases the comparison view, which raises
    nothing itself, is not on the page. *)
Theorem raised_run_shows_nothing {L : Libs} (inp : inputs) (s : state) (e : exn) :
  (script inp s).2 = Raised e ->
  columns (page (script inp s).1) = [] /\
  ((uploaded_files inp <> [] /\ results (page (script inp s).1) = []) \/
   (e = duplicate_button /\
    ~ NoDup (map filename (history_of (script inp s).1)))).
Proof.
  unfold script. destruct (os_getenv _ _) as [[|c k]|]; try discriminate.
  match goal with |- context [main inp ?st] =>
    pose proof (main_raised inp st) as K;
    destruct (main inp st) as [s3 [e'|[]]] end; [|discriminate].
  intros E. injection E as <-. cbn [fst]. now apply K.
Qed.

Lemma raised_run_shows_nothing_witness :
  let inp := Inputs ∅ [UploadedFile "strip.png" Toy.strip] true ∅ in
  let s := set_history (Some Toy.two_reports) Toy.fresh in
  columns (page (@script Toy.online inp s).1) = [] /\
  results (page (@script Toy.online inp s).1) = [].
Proof.
  cbv zeta.
  destruct (@raised_run_shows_nothing Toy.online
              (Inputs ∅ [UploadedFile "strip.png" Toy.strip] true ∅)
              (set_history (Some Toy.two_reports) Toy.fresh)
              (ValueError "height and width must be > 0"))
    as [Hc [[_ Hr]|[He _]]].
  - vm_compute. reflexivity.
  - split; [exact Hc|exact Hr].
  - discriminate.
Defined.

(** ** Model calls over a session *)

Section Calls.
Context {L : Libs}.

Lemma display_keeps_analysis : keeps analysis_state display_reports.
Proof. unfold display_reports. keeps_auto. Qed.

Lemma compare_keeps_analysis ws : keeps analysis_state (compare_reports ws).
Proof. unfold compare_reports. keeps_auto. Qed.

Lemma st_images_keeps_analysis files : keeps analysis_state (for_each st_image files).
Proof. apply keeps_for_each. auto with keeps. Qed.

Lemma upload_images_calls (inp : inputs) (s : state) (h0 : list entry) :
  session_history s = Some h0 ->
  exists reports,
    history_of (upload_images inp s).1 = (h0 ++ reports)%list /\
    calls (upload_images inp s).1 = (calls s + length reports)%nat.
Proof.
  intros H. rewrite upload_images_run. cbv zeta.
  destruct (uploaded_files inp) as [|f files] eqn:Hf.
  - exists []. unfold history_of. cbn. rewrite H.
    cbn. rewrite app_nil_r. split; [reflexivity|lia].
  - match goal with |- context [for_each st_image ?l ?st] =>
      pose proof (st_images_keeps_analysis l st) as K;
      pose proof (st_images_keeps_history l st) as Kh;
      destruct (for_each st_image l st) as [s2 [e|[]]] end;
      cbn [fst session_history set_page] in K, Kh; rewrite H in Kh;
      unfold analysis_state in K; cbn [fs calls set_page] in K;
      injection K as _ Kc _.
    + exists []. cbn [fst]. unfold history_of. rewrite Kh, Kc.
      cbn. rewrite app_nil_r. split; [reflexivity|lia].
    + destruct (analyze_all_clicked inp).
      * match goal with |- context [analyze_all _ ?st] =>
          destruct (analyze_all_summary (f :: files) st h0 Kh)
            as (reports & Hh & Hlen & Hc & _) end.
        exists (zip_with Entry (map name (f :: files)) reports).
        unfold history_of. rewrite Hh. split; [reflexivity|].
        rewrite Hc, length_zip_with, length_map. cbn [calls set_page].
        cbn [length] in *. lia.
      * exists []. cbn [fst]. unfold history_of. cbn [session_history set_page].
        rewrite Kh. cbn [calls set_page default]. rewrite app_nil_r.
        split; [reflexivity|]. cbn [length]. lia.
Qed.

Lemma main_calls (inp : inputs) (s : state) :
  (calls (main inp s).1 + length (history_of s)
   = calls s + length (history_of (main inp s).1))%nat.
Proof.
  unfold main. rewrite bind_run, setup_page_run. cbv beta iota.
  rewrite bind_run.
  match goal with |- context [upload_images inp ?st] =>
    destruct (upload_images_calls inp st (history_of s) eq_refl)
      as (reports & Hh & Hc);
    destruct (upload_images inp st) as [s2 [e|[]]] end;
    cbn [fst calls] in Hh, Hc.
  { cbn [fst]. rewrite Hh, Hc, length_app. lia. }
  rewrite bind_run.
  pose proof (display_keeps_analysis s2) as K3.
  destruct (display_reports s2) as [s3 [e|[]]]; cbn [fst] in K3;
    unfold analysis_state in K3; injection K3 as _ K3c K3h.
  { cbn [fst]. rewrite K3c, K3h, Hh, Hc, length_app. lia. }
  pose proof (compare_keeps_analysis (widgets inp) s3) as K4.
  destruct (compare_reports (widgets inp) s3) as [s4 r4]; cbn [fst] in *.
  unfold analysis_state in K4. injection K4 as _ K4c K4h.
  rewrite K4c, K4h, K3c, K3h, Hh, Hc, length_app. lia.
Qed.

Lemma script_calls (inp : inputs) (s : state) :
  (calls (script inp s).1 + length (history_of s)
   = calls s + length (history_of (script inp s).1))%nat.
Proof.
  unfold script. destruct (os_getenv _ _) as [[|c k]|]; try reflexivity.
  match goal with |- context [main inp ?st] =>
    pose proof (main_calls inp st) as K;
    destruct (main inp st) as [s3 [e|[]]] end; exact K.
Qed.
End Calls.

(** X14.  Over a whole session, whatever the runs do (complete, stop for
    want of a credential, end on an exception), the model has been called
    exactly once for every report the history has gained: calls and
    history grow in step. *)
Theorem session_calls_match_reports {L : Libs} (runs : list inputs) (s : state) :
  (calls (run_session runs s) + length (history_of s)
   = calls s + length (history_of (run_session runs s)))%nat.
Proof.
  revert s. induction runs as [|inp runs IH]; intros s; cbn [run_session].
  - lia.
  - pose proof (IH (script inp s).1). pose proof (script_calls inp s). lia.
Qed.

(** ** Repeated filenames *)

(** The names in the history are names of uploads: over a session whose
    uploads all have a name, no entry has an empty filename. *)
Lemma history_names_nonempty {L : Libs} (runs : list inputs) (s : state) :
  Forall (fun inp => Forall (fun up => name up <> "") (uploaded_files inp)) runs ->
  Forall (fun e => filename e <> "") (history_of s) ->
  Forall (fun e => filename e <> "") (history_of (run_session runs s)).
Proof.
  revert s. induction runs as [|inp runs IH]; intros s Hruns Hs; cbn [run_session].
  - exact Hs.
  - apply Forall_cons in Hruns as [Hinp Hruns]. apply IH; [exact Hruns|].
    destruct (script_history inp s) as (reports & -> & _).
    apply Forall_app. split; [exact Hs|].
    generalize dependent reports.
    induction Hinp as [|up ups Hup Hups IHups]; intros reports;
      destruct reports as [|r reports]; cbn [map zip_with]; try constructor.
    + exact Hup.
    + apply IHups.
Qed.



(** The same two runs, evaluated: Analyze All is clicked twice with
    [a.png] in the uploader. The first run completes and shows its report.
    The second stores a second report under the same name, then ends on
    the exception of the repeated download button, before the comparison
    view, although the history holds two entries. *)
Lemma same_file_analysed_twice :
  let inp := Inputs ∅ [UploadedFile "a.png" Toy.scan] true ∅ in
  let s1 := (@script Toy.online inp Toy.fresh).1 in
  (@script Toy.online inp Toy.fresh).2 = Completed /\
  (@script Toy.online inp s1).2 = Raised duplicate_button /\
  map filename (history_of (@script Toy.online inp s1).1) = ["a.png"; "a.png"] /\
  length (omap txt_artifact (page (@script Toy.online inp s1).1)) = 1%nat /\
  columns (page (@script Toy.online inp s1).1) = [].
Proof.
  cbv zeta. repeat split; vm_compute; reflexivity.
Qed.

(** ** Uploads that do not decode *)

Lemma st_image_undecodable {L : Libs} (up : uploaded_file) (s : state) (e : exn) :
  pil_open (getbuffer up) = inl e -> st_image up s = (s, inl e).
Proof.
  intros H. unfold st_image. erewrite bind_err; [reflexivity|].
  unfold lift. now rewrite H.
Qed.

Lemma st_images_undecodable {L : Libs} (files : list uploaded_file) (s : state)
    (up : uploaded_file) (e : exn) :
  up ∈ files -> pil_open (getbuffer up) = inl e ->
  exists s' e', for_each st_image files s = (s', inl e').
Proof.
  revert s. induction files as [|f files IH]; intros s Hin Ho.
  - now apply elem_of_nil in Hin.
  - cbn [for_each]. change (bind ?m ?k) with (m ≫= k). rewrite bind_run.
    destruct (st_image f s) as [s1 [e1|[]]] eqn:E1; [eauto|].
    apply elem_of_cons in Hin as [->|Hin].
    + rewrite (st_image_undecodable f s e Ho) in E1. discriminate.
    + now apply IH.
Qed.

(** X15.  An upload that does not decode never reaches the analysis:
    [st.image] raises on it when the sidebar shows the uploads, before
    the Analyze All button. Whatever was clicked, the run does not
    complete, no file is written, the model is not called and the history
    is as it was. *)
Theorem undecodable_upload_stops_run {L : Libs} (inp : inputs) (s : state)
    (up : uploaded_file) (e : exn) :
  up ∈ uploaded_files inp ->
  pil_open (getbuffer up) = inl e ->
  (script inp s).2 <> Completed /\
  fs (script inp s).1 = fs s /\
  calls (script inp s).1 = calls s /\
  history_of (script inp s).1 = history_of s.
Proof.
  intros Hin Ho. unfold script.
  destruct (os_getenv _ _) as [[|c k]|];
    try (split; [discriminate|repeat split; reflexivity]).
  match goal with |- context [main inp ?st] => set (s0 := st) end.
  rewrite main_run, upload_images_run. cbv zeta.
  destruct (uploaded_files inp) as [|f files] eqn:Hf;
    [now apply elem_of_nil in Hin|].
  match goal with |- context [for_each st_image ?l ?st] =>
    destruct (st_images_undecodable l st up e Hin Ho) as (s2 & e2 & E2);
    pose proof (st_images_keeps_analysis l st) as K end.
  rewrite E2 in K |- *. cbn [fst snd]. split; [discriminate|].
  unfold analysis_state in K. rewrite setup_page_run in K.
  cbn [fs calls history_of session_history set_page fst default] in K.
  injection K as K1 K2 K3. unfold history_of at 1. rewrite K1, K2.
  unfold history_of in K3. cbn [default] in K3. auto.
Qed.

Lemma undecodable_upload_stops_run_witness :
  let inp := Inputs ∅ [UploadedFile "scan.png" Toy.scan;
                       UploadedFile "notes.png" Toy.corrupt] true ∅ in
  (@script Toy.online inp Toy.fresh).2 <> Completed /\
  fs (@script Toy.online inp Toy.fresh).1 = ∅ /\
  calls (@script Toy.online inp Toy.fresh).1 = 0%nat.
Proof.
  cbv zeta.
  destruct (@undecodable_upload_stops_run Toy.online
              (Inputs ∅ [UploadedFile "scan.png" Toy.scan;
                         UploadedFile "notes.png" Toy.corrupt] true ∅)
              Toy.fresh (UploadedFile "notes.png" Toy.corrupt)
              (Exn "UnidentifiedImageError" "cannot identify image file"))
    as (Hs & Hf & Hc & _).
  - apply list_elem_of_further, list_elem_of_here.
  - reflexivity.
  - split; [exact Hs|]. split; [exact Hf|exact Hc].
Defined.
